(** * web3_workshop: wallet bridge (lib/web3.ts) and session shell (App.tsx)

    A shallow embedding of the TypeScript sources:
    - [Js]      : the fragment of JavaScript values, strings and exceptions
                  the wallet bridge manipulates;
    - [Web3]    : [checkMetaMask], [connectWallet], [getBalance],
                  [formatAddress] and [getUSDCBalance] of lib/web3.ts;
    - [Session] : the state and the handlers of the [App] component, at
                  their declared types; [Runtime] : the same on the values
                  they receive at run time;
    - [LoginPage], [HomePage], [App] : the handlers and the views of the
                  pages.

    Strings are [String.string], one character per code unit (addresses
    and messages are ASCII); the browser's [localStorage] is a
    [gmap string string]; JavaScript Numbers are IEEE 754 binary64 values,
    taken from the Standard Library's [SpecFloat]. *)

From Stdlib Require Import ZArith String Ascii List Bool Lia.
From Stdlib Require Import SpecFloat.
From stdpp Require Import gmap strings.

Set Warnings "-register-all".
Local Open Scope Z_scope.

(* ===================================================================== *)
(** * JavaScript values, strings, exceptions *)
(* ===================================================================== *)

Module Js.

(** The values an [unknown] coming back from the provider may hold, as far
    as lib/web3.ts looks at them. *)
Inductive JsValue : Type :=
  | JsUndefined
  | JsNull
  | JsBool (b : bool)
  | JsString (s : string)
  | JsBigInt (z : Z)
  | JsArray (elems : list JsValue).

(** What a [throw] carries: an [Error] object (only its [message] is ever
    read) or any other value, for which [instanceof Error] is false. *)
Inductive Thrown : Type :=
  | ErrorObj (message : string)
  | NonError (v : JsValue).

(** How the body of a function, or an awaited promise, ends. *)
Inductive Outcome (A : Type) : Type :=
  | Returned (a : A)
  | Threw (t : Thrown).
Arguments Returned {A} a.
Arguments Threw {A} t.

(** [!v] *)
Definition falsy (v : JsValue) : bool :=
  match v with
  | JsUndefined | JsNull => true
  | JsBool b => negb b
  | JsString s => (String.length s =? 0)%nat
  | JsBigInt z => (z =? 0)
  | JsArray _ => false
  end.

(** [v.length === 0]; the property is [undefined] on the values that have
    none, and [undefined === 0] is false. *)
Definition length_is_zero (v : JsValue) : bool :=
  match v with
  | JsString s => (String.length s =? 0)%nat
  | JsArray l => (List.length l =? 0)%nat
  | _ => false
  end.

(** [v[0]] on a value that is neither [undefined] nor [null]. *)
Definition index0 (v : JsValue) : JsValue :=
  match v with
  | JsArray (x :: _) => x
  | JsString (String c _) => JsString (String c EmptyString)
  | _ => JsUndefined
  end.

(** ** String.prototype.substring

    [s.substring(start, end)]: both indices are clamped to [0, length],
    swapped when [start > end], and the code units from the smaller up to
    (not including) the larger are returned. *)
Definition clamp (len i : Z) : Z := Z.min (Z.max i 0) len.

Definition substring (s : string) (start end_ : Z) : string :=
  let len := Z.of_nat (String.length s) in
  let a := clamp len start in
  let b := clamp len end_ in
  let from := Z.min a b in
  let to := Z.max a b in
  String.substring (Z.to_nat from) (Z.to_nat (to - from)) s.

(** [s.substring(start)]: [end] is [undefined], which means [length]. *)
Definition substring_from (s : string) (start : Z) : string :=
  substring s start (Z.of_nat (String.length s)).

(** ** Decimal digits of a non-negative integer

    [BigInt.prototype.toString()], and "the String consisting of the digits
    of the decimal representation of n" of the ECMAScript algorithms.  The
    fuel bounds the number of digits. *)
Definition digit (d : Z) : ascii := ascii_of_nat (48 + Z.to_nat d).

Fixpoint decimal_fuel (fuel : nat) (n : Z) : string :=
  match fuel with
  | O => EmptyString
  | S fuel' =>
      if n <? 10 then String (digit n) EmptyString
      else decimal_fuel fuel' (n / 10) +:+ String (digit (n mod 10)) EmptyString
  end.

Definition decimal (n : Z) : string :=
  decimal_fuel (S (Z.to_nat (Z.log2 n))) n.

Fixpoint zeros (k : nat) : string :=
  match k with
  | O => EmptyString
  | S k' => String "0"%char (zeros k')
  end.

(** ** Numbers

    A JavaScript Number is an IEEE 754 binary64 value. *)
Definition prec : Z := 53.
Definition emax : Z := 1024.

(** [Number(z)] on a BigInt, and the value of an integer literal: the
    nearest Number, ties to even, an infinity beyond the range. *)
Definition Number_of_bigint (z : Z) : spec_float :=
  binary_normalize prec emax z 0 false.

(** [x / y] *)
Definition Number_div (x y : spec_float) : spec_float := SFdiv prec emax x y.

(** The integer [n] for which [n / 10^f - m * 2^e] is as close to zero as
    possible, the larger one if there are two. *)
Definition nearest_scaled (m : positive) (e : Z) (f : Z) : Z :=
  if 0 <=? e then Zpos m * 2 ^ e * 10 ^ f
  else (2 * (Zpos m * 10 ^ f) + 2 ^ (- e)) / (2 * 2 ^ (- e)).

(** [bound <= m * 2^e] *)
Definition finite_geb (m : positive) (e : Z) (bound : Z) : bool :=
  if 0 <=? e then bound <=? Zpos m * 2 ^ e
  else bound * 2 ^ (- e) <=? Zpos m.

(** Steps 8 to 10 of [Number.prototype.toFixed]: the digits of [n], padded
    on the left with zeros up to [f + 1] of them, with a point before the
    last [f]. *)
Definition toFixed_digits (f : nat) (n : Z) : string :=
  let m := decimal n in
  if (f =? 0)%nat then m
  else
    let k := String.length m in
    let m := if (k <=? f)%nat then zeros (f + 1 - k) +:+ m else m in
    let k := Z.of_nat (String.length m) in
    substring m 0 (k - Z.of_nat f) +:+ "." +:+ substring_from m (k - Z.of_nat f).

(** *** Number::toString above 10^21

    For a finite [x >= 10^21] (an integer [v]) the result is in exponent
    notation: with [k] as small as possible, integers [s] and [n] such that
    [10^(k-1) <= s < 10^k] and [s * 10^(n-k)] rounds to [x]; among several
    [s], the one for which [s * 10^(n-k)] is closest to [v]. *)
Definition roundtrips (x : spec_float) (k : Z) (sn : Z * Z) : bool :=
  let '(s, n) := sn in
  (10 ^ (k - 1) <=? s) && (s <? 10 ^ k)
  && SFeqb (Number_of_bigint (s * 10 ^ (n - k))) x.

Definition candidates (v k d : Z) : list (Z * Z) :=
  flat_map (fun n => [(v / 10 ^ (n - k), n); (v / 10 ^ (n - k) + 1, n)])
           [d - 1; d; d + 1].

Definition closer (v k : Z) (a b : Z * Z) : Z * Z :=
  let dist '(s, n) := Z.abs (s * 10 ^ (n - k) - v) in
  if dist b <? dist a then b
  else if (dist b =? dist a) && Z.even (fst b) then b
  else a.

Fixpoint shortest (fuel : nat) (x : spec_float) (v k d : Z)
  : option (Z * Z * Z) :=
  match fuel with
  | O => None
  | S fuel' =>
      match filter (roundtrips x k) (candidates v k d) with
      | c :: cs => let '(s, n) := fold_left (closer v k) cs c in Some (s, n, k)
      | [] => shortest fuel' x v (k + 1) d
      end
  end.

Definition exponent_notation (s n k : Z) : string :=
  let digits := decimal s in
  let mantissa :=
    if k =? 1 then digits
    else substring digits 0 1 +:+ "." +:+ substring_from digits 1 in
  mantissa +:+ "e+" +:+ decimal (n - 1).

Definition Number_toString_large (x : spec_float) (v : Z) : string :=
  match shortest 17 x v 1 (Z.of_nat (String.length (decimal v))) with
  | Some (s, n, k) => exponent_notation s n k
  | None => decimal v
  end.

(** *** Number.prototype.toFixed *)
Definition toFixed (fractionDigits : nat) (x : spec_float) : string :=
  match x with
  | S754_nan => "NaN"
  | S754_infinity false => "Infinity"
  | S754_infinity true => "-Infinity"
  | S754_zero _ => toFixed_digits fractionDigits 0
  | S754_finite sign m e =>
      (if sign then "-" else "") +:+
      (if finite_geb m e (10 ^ 21) then
         Number_toString_large (S754_finite false m e) (Zpos m * 2 ^ e)
       else
         toFixed_digits fractionDigits
           (nearest_scaled m e (Z.of_nat fractionDigits)))
  end.

End Js.

(* ===================================================================== *)
(** * lib/web3.ts *)
(* ===================================================================== *)

Module Web3.
Import Js.

(** ** The injected provider *)

(** The argument of [request]. *)
Record RequestArgs : Type := {
  method : string;
  params : option (list JsValue)
}.

(** [interface EthereumProvider].  A promise is modelled by the outcome of
    awaiting it.

    Modelled from the spec: the ethers package ([BrowserProvider],
    [Contract], [formatEther]) is imported by lib/web3.ts and is not part of
    the sources.  Following the spec's "injectable capability interface
    (requestAccounts, getBalance, callContract)", what ethers obtains from
    the wallet for [provider.getBalance(address)] and for the read-only
    contract call [balanceOf(address)] is given by two more fields, each
    answering with the raw integer or with the fault it raises. *)
Record EthereumProvider : Type := {
  isMetaMask : option bool;
  request : RequestArgs -> Outcome JsValue;
  rpc_getBalance : string -> Outcome Z;
  rpc_call_balanceOf : string -> string -> Outcome Z
}.

(** [window]: the only field read is [ethereum]. *)
Record Window : Type := { ethereum : option EthereumProvider }.

(** A call made to the wallet provider. *)
Inductive ProviderCall : Type :=
  | CallRequest (args : RequestArgs)
  | CallGetBalance (address : string)
  | CallContract (contract : string) (fn : string) (arg : string).

(** ** Async functions: exceptions, and the trace of provider calls

    A computation takes the calls made so far and ends with an outcome and
    the extended trace (latest call last). *)
Definition Async (A : Type) : Type :=
  list ProviderCall -> Outcome A * list ProviderCall.

Definition ret {A} (a : A) : Async A := fun tr => (Returned a, tr).

Definition throw {A} (t : Thrown) : Async A := fun tr => (Threw t, tr).

Definition bind {A B} (m : Async A) (k : A -> Async B) : Async B :=
  fun tr =>
    match m tr with
    | (Returned a, tr') => k a tr'
    | (Threw t, tr') => (Threw t, tr')
    end.

(** [try { body } catch (error) { handler }] *)
Definition try_catch {A} (body : Async A) (handler : Thrown -> Async A)
  : Async A :=
  fun tr =>
    match body tr with
    | (Returned a, tr') => (Returned a, tr')
    | (Threw t, tr') => handler t tr'
    end.

(** [await p] where [p] is the promise of a provider call: the call is
    recorded and the promise's outcome becomes the computation's. *)
Definition await_call {A} (c : ProviderCall) (o : Outcome A) : Async A :=
  fun tr => (o, tr ++ [c]).

Notation "x <- m ;; k" := (bind m (fun x => k))
  (at level 100, m at next level, right associativity).

(** The shared [catch] block:
    [if (error instanceof Error) throw new Error(`<prefix>${error.message}`);
     throw error;] *)
Definition rethrow_prefixed {A} (prefix : string) (error : Thrown) : Async A :=
  match error with
  | ErrorObj message => throw (ErrorObj (prefix +:+ message))
  | NonError _ => throw error
  end.

Definition USDC_ADDRESS : string :=
  "0xA0b86991c6218b36c1d19D4a2e9Eb0cE3606eB48".

(** The [width] digits of [frac] without trailing zeros, one digit being
    kept. *)
Fixpoint fraction_digits (fuel : nat) (frac : Z) (width : nat) : string :=
  match fuel with
  | O => zeros (width - String.length (decimal frac)) +:+ decimal frac
  | S fuel' =>
      if (1 <? Z.of_nat width) && (frac mod 10 =? 0) then
        fraction_digits fuel' (frac / 10) (width - 1)
      else zeros (width - String.length (decimal frac)) +:+ decimal frac
  end.

(** Modelled from the spec: [formatEther] of ethers, not part of the
    sources: "converts to the human-readable unit using a fixed 18-decimal
    exponent, returns as a string", one native unit being "1.0".  The whole
    part, a point, and the 18 digits of the fractional part without its
    trailing zeros. *)
Definition formatEther (wei : Z) : string :=
  let magnitude := Z.abs wei in
  (if wei <? 0 then "-" else "") +:+
  decimal (magnitude / 10 ^ 18) +:+ "." +:+
  fraction_digits 18 (magnitude mod 10 ^ 18) 18.

Section WithWindow.

Variable window : Window.

(** [typeof window.ethereum !== 'undefined'] *)
Definition checkMetaMask : bool :=
  match ethereum window with
  | Some _ => true
  | None => false
  end.

(** [window.ethereum!.request(args)]: the non-null assertion is erased at
    run time; calling [request] on [undefined] raises a [TypeError], which
    is an [Error]. *)
Definition ethereum_request (args : RequestArgs) : Async JsValue :=
  match ethereum window with
  | Some p => await_call (CallRequest args) (request p args)
  | None =>
      throw (ErrorObj "Cannot read properties of undefined (reading 'request')")
  end.

Definition connectWallet : Async JsValue :=
  if negb checkMetaMask then
    throw (ErrorObj "MetaMask is not installed. Please install MetaMask extension.")
  else
    try_catch
      (accounts <- ethereum_request
                     {| method := "eth_requestAccounts"; params := None |} ;;
       if falsy accounts || length_is_zero accounts then
         throw (ErrorObj "No accounts found. Please connect MetaMask.")
       else
         ret (index0 accounts))
      (rethrow_prefixed "Failed to connect wallet: ").

(** ** getBalance *)

(** Modelled from the spec: [provider.getBalance(address)] of ethers'
    [BrowserProvider], not part of the sources: "queries the provider for
    the account's native-currency balance (smallest unit)". *)
Definition BrowserProvider_getBalance (address : string) : Async Z :=
  match ethereum window with
  | Some p => await_call (CallGetBalance address) (rpc_getBalance p address)
  | None =>
      throw (ErrorObj "Cannot read properties of undefined (reading 'request')")
  end.

Definition getBalance (address : string) : Async string :=
  if negb checkMetaMask then
    throw (ErrorObj "MetaMask is not installed.")
  else
    try_catch
      (balance <- BrowserProvider_getBalance address ;;
       let ethBalance := formatEther balance in
       ret ethBalance)
      (rethrow_prefixed "Failed to fetch balance: ").

(** ** getUSDCBalance *)

(** Modelled from the spec: [usdcContract.balanceOf(address)] of an ethers
    [Contract] built on [USDC_ADDRESS], [USDC_ABI] and the provider, not
    part of the sources: "invokes a read-only balanceOf call against a fixed
    token contract interface" and yields the raw integer. *)
Definition Contract_balanceOf (contract address : string) : Async Z :=
  match ethereum window with
  | Some p =>
      await_call (CallContract contract "balanceOf" address)
                 (rpc_call_balanceOf p contract address)
  | None =>
      throw (ErrorObj "Cannot read properties of undefined (reading 'request')")
  end.

Definition getUSDCBalance (address : string) : Async string :=
  if negb checkMetaMask then
    throw (ErrorObj "MetaMask is not installed.")
  else
    try_catch
      (balance <- Contract_balanceOf USDC_ADDRESS address ;;
       let usdcBalance :=
         Number_div (Number_of_bigint balance) (Number_of_bigint 1000000) in
       ret (toFixed 2 usdcBalance))
      (rethrow_prefixed "Failed to fetch USDC balance: ").

End WithWindow.

(** ** formatAddress

    [!address] holds of the empty string only. *)
Definition formatAddress (address : string) : string :=
  if (String.length address =? 0)%nat
     || (Z.of_nat (String.length address) <? 10) then
    address
  else
    substring address 0 6 +:+ "..."
      +:+ substring_from address (Z.of_nat (String.length address) - 4).

End Web3.

(* ===================================================================== *)
(** * App.tsx *)
(* ===================================================================== *)

Module Session.
Import Js Web3.

(** The two [useState] cells of [App]. *)
Record AppState : Type := {
  isLoggedIn : bool;
  userAddress : option string
}.

(** What the handlers of [App] act on: the component's state, the
    browser's [localStorage], and the calls made to the wallet provider. *)
Record Page : Type := {
  app : AppState;
  localStorage : gmap string string;
  providerCalls : list ProviderCall
}.

(** The statements the effect and the handlers are made of. *)
Inductive Stmt : Type :=
  | SetIsLoggedIn (b : bool)
  | SetUserAddress (a : option string)
  | StorageSetItem (key value : string)
  | StorageRemoveItem (key : string).

Definition exec (pg : Page) (st : Stmt) : Page :=
  match st with
  | SetIsLoggedIn b =>
      {| app := {| isLoggedIn := b; userAddress := userAddress (app pg) |};
         localStorage := localStorage pg;
         providerCalls := providerCalls pg |}
  | SetUserAddress a =>
      {| app := {| isLoggedIn := isLoggedIn (app pg); userAddress := a |};
         localStorage := localStorage pg;
         providerCalls := providerCalls pg |}
  | StorageSetItem key value =>
      {| app := app pg;
         localStorage := <[key := value]> (localStorage pg);
         providerCalls := providerCalls pg |}
  | StorageRemoveItem key =>
      {| app := app pg;
         localStorage := delete key (localStorage pg);
         providerCalls := providerCalls pg |}
  end.

Definition run (body : list Stmt) (pg : Page) : Page :=
  fold_left exec body pg.

(** [useState(false)] and [useState<string | null>(null)] *)
Definition initialState : AppState :=
  {| isLoggedIn := false; userAddress := None |}.

(** [localStorage.getItem(key)]; [None] is [null]. *)
Definition getItem (pg : Page) (key : string) : option string :=
  localStorage pg !! key.

(** The body of the effect run on mount; [if (savedAddress)] fails on
    [null] and on the empty string. *)
Definition restoreSession (pg : Page) : list Stmt :=
  match getItem pg "userAddress" with
  | Some savedAddress =>
      if (String.length savedAddress =? 0)%nat then []
      else [SetUserAddress (Some savedAddress); SetIsLoggedIn true]
  | None => []
  end.

Definition handleLoginSuccess (address : string) : list Stmt :=
  [SetUserAddress (Some address);
   SetIsLoggedIn true;
   StorageSetItem "userAddress" address].

Definition handleLogout : list Stmt :=
  [SetIsLoggedIn false;
   SetUserAddress None;
   StorageRemoveItem "userAddress"].

(** Mounting [App] in a browser: the state cells take their initial
    values, then the effect runs. *)
Definition mount (storage : gmap string string) (calls : list ProviderCall)
  : Page :=
  let pg := {| app := initialState;
               localStorage := storage;
               providerCalls := calls |} in
  run (restoreSession pg) pg.

(** "authenticated implies address is present" *)
Definition session_invariant (st : AppState) : Prop :=
  isLoggedIn st = true -> userAddress st <> None.

End Session.

(* ===================================================================== *)
(** * Statements and fixtures *)
(* ===================================================================== *)

Module Spec.
Import Js Web3.

(** The request [connectWallet] sends. *)
Definition requestAccounts : RequestArgs :=
  {| method := "eth_requestAccounts"; params := None |}.

(** The decimal notation of [n] hundredths, with exactly two fractional
    digits. *)
Definition hundredths (n : Z) : string :=
  decimal (n / 100) +:+ "." +:+
  String (digit (n / 10 mod 10)) (String (digit (n mod 10)) EmptyString).

(** The location of [q + num / den] within [[q, q + 1)], for
    [0 <= num < den]. *)
Definition location_of (num den : Z) : location :=
  if num =? 0 then loc_Exact else loc_Inexact (2 * num ?= den).

(** A provider that answers every [request] with [answer]; its balance
    queries fail. *)
Definition provider_answering (answer : Outcome JsValue) : EthereumProvider :=
  {| isMetaMask := Some true;
     request := fun _ => answer;
     rpc_getBalance := fun _ => Threw (ErrorObj "unsupported");
     rpc_call_balanceOf := fun _ _ => Threw (ErrorObj "unsupported") |}.

Definition window_answering (answer : Outcome JsValue) : Window :=
  {| ethereum := Some (provider_answering answer) |}.

(** A provider that has no accounts to give and answers every balance
    query, native or token, with [raw]. *)
Definition provider_with_balance (raw : Z) : EthereumProvider :=
  {| isMetaMask := Some true;
     request := fun _ => Returned (JsArray []);
     rpc_getBalance := fun _ => Returned raw;
     rpc_call_balanceOf := fun _ _ => Returned raw |}.

Definition window_with_balance (raw : Z) : Window :=
  {| ethereum := Some (provider_with_balance raw) |}.

(** The specification's wording of the failure kinds: the failure on an
    empty account list is of its own kind, so it differs from every failure
    that wraps a fault raised by the provider. *)
Definition no_accounts_failure_is_distinct : Prop :=
  forall (p_empty p_fault : EthereumProvider) (message : string)
         (tr : list ProviderCall),
    request p_empty requestAccounts = Returned (JsArray []) ->
    request p_fault requestAccounts = Threw (ErrorObj message) ->
    fst (connectWallet {| ethereum := Some p_empty |} tr)
      <> fst (connectWallet {| ethereum := Some p_fault |} tr).

(** The specification's wording of the token balance: for every raw
    [uint256] balance the result is [b / 10^6] written with exactly two
    fractional digits, whichever way the third digit is rounded away. *)
Definition usdc_balance_is_decimal_quotient : Prop :=
  forall (window : Window) (p : EthereumProvider) (address : string)
         (b : Z) (tr : list ProviderCall),
    ethereum window = Some p ->
    rpc_call_balanceOf p USDC_ADDRESS address = Returned b ->
    0 <= b < 2 ^ 256 ->
    exists n,
      Z.abs (10 ^ 4 * n - b) < 10 ^ 4 /\
      fst (getUSDCBalance window address tr) = Returned (hundredths n).

End Spec.

(* ===================================================================== *)
(** * pages/LoginPage.tsx, pages/HomePage.tsx and the view of App.tsx *)
(* ===================================================================== *)

Module Page_common.
Import Js.

(** [err instanceof Error ? err.message : fallback] *)
Definition message_or (fallback : string) (err : Thrown) : string :=
  match err with
  | ErrorObj message => message
  | NonError _ => fallback
  end.

(** A [string | null] used as a condition: [null] and the empty string
    fail it. *)
Definition truthy (v : option string) : bool :=
  match v with
  | Some s => negb (String.length s =? 0)%nat
  | None => false
  end.

End Page_common.

Module LoginPage.
Import Js Web3 Page_common.

(** The two [useState] cells of [LoginPage]. *)
Record LoginState : Type := {
  isConnecting : bool;
  error : option string
}.

(** [useState(false)] and [useState<string | null>(null)] *)
Definition initialState : LoginState :=
  {| isConnecting := false; error := None |}.

(** The component with the calls it has made to its [onLoginSuccess] prop
    (latest last).  The prop is the parent's business: a call is recorded
    with its argument. *)
Record Component : Type := {
  state : LoginState;
  loginSuccessCalls : list JsValue
}.

Definition setIsConnecting (b : bool) (c : Component) : Component :=
  {| state := {| isConnecting := b; error := error (state c) |};
     loginSuccessCalls := loginSuccessCalls c |}.

Definition setError (e : option string) (c : Component) : Component :=
  {| state := {| isConnecting := isConnecting (state c); error := e |};
     loginSuccessCalls := loginSuccessCalls c |}.

Definition onLoginSuccess (address : JsValue) (c : Component) : Component :=
  {| state := state c;
     loginSuccessCalls := loginSuccessCalls c ++ [address] |}.

Definition handleSignInWithMetaMask (window : Window) (c : Component)
    (tr : list ProviderCall) : Component * list ProviderCall :=
  if negb (checkMetaMask window) then
    (setError
       (Some "MetaMask is not installed. Please install the MetaMask extension to continue.")
       c,
     tr)
  else
    let c1 := setError None (setIsConnecting true c) in
    let '(outcome, tr') := connectWallet window tr in
    let c2 :=
      match outcome with
      | Returned address => onLoginSuccess address c1
      | Threw err =>
          setError (Some (message_or "Failed to connect wallet" err)) c1
      end in
    (setIsConnecting false c2, tr').

(** [{error && (<div ...>{error}</div>)}]: the message shown under the
    button, if any. *)
Definition errorBanner (st : LoginState) : option string :=
  if truthy (error st) then error st else None.

End LoginPage.

Module HomePage.
Import Js Web3 Page_common.

(** The six [useState] cells of [HomePage]. *)
Record HomeState : Type := {
  balance : option string;
  usdcBalance : option string;
  isLoadingBalance : bool;
  isLoadingUsdc : bool;
  error : option string;
  usdcError : option string
}.

Definition initialState : HomeState :=
  {| balance := None; usdcBalance := None;
     isLoadingBalance := true; isLoadingUsdc := true;
     error := None; usdcError := None |}.

Definition setBalance (v : option string) (st : HomeState) : HomeState :=
  {| balance := v; usdcBalance := usdcBalance st;
     isLoadingBalance := isLoadingBalance st;
     isLoadingUsdc := isLoadingUsdc st;
     error := error st; usdcError := usdcError st |}.

Definition setUsdcBalance (v : option string) (st : HomeState) : HomeState :=
  {| balance := balance st; usdcBalance := v;
     isLoadingBalance := isLoadingBalance st;
     isLoadingUsdc := isLoadingUsdc st;
     error := error st; usdcError := usdcError st |}.

Definition setIsLoadingBalance (b : bool) (st : HomeState) : HomeState :=
  {| balance := balance st; usdcBalance := usdcBalance st;
     isLoadingBalance := b;
     isLoadingUsdc := isLoadingUsdc st;
     error := error st; usdcError := usdcError st |}.

Definition setIsLoadingUsdc (b : bool) (st : HomeState) : HomeState :=
  {| balance := balance st; usdcBalance := usdcBalance st;
     isLoadingBalance := isLoadingBalance st;
     isLoadingUsdc := b;
     error := error st; usdcError := usdcError st |}.

Definition setError (e : option string) (st : HomeState) : HomeState :=
  {| balance := balance st; usdcBalance := usdcBalance st;
     isLoadingBalance := isLoadingBalance st;
     isLoadingUsdc := isLoadingUsdc st;
     error := e; usdcError := usdcError st |}.

Definition setUsdcError (e : option string) (st : HomeState) : HomeState :=
  {| balance := balance st; usdcBalance := usdcBalance st;
     isLoadingBalance := isLoadingBalance st;
     isLoadingUsdc := isLoadingUsdc st;
     error := error st; usdcError := e |}.

(** The first effect: [fetchBalance], run to completion. *)
Definition fetchBalance (window : Window) (address : string)
    (st : HomeState) (tr : list ProviderCall)
  : HomeState * list ProviderCall :=
  let st1 := setError None (setIsLoadingBalance true st) in
  let '(outcome, tr') := getBalance window address tr in
  let st2 :=
    match outcome with
    | Returned ethBalance => setBalance (Some ethBalance) st1
    | Threw err => setError (Some (message_or "Failed to fetch balance" err)) st1
    end in
  (setIsLoadingBalance false st2, tr').

(** The second effect: [fetchUSDCBalance], run to completion. *)
Definition fetchUSDCBalance (window : Window) (address : string)
    (st : HomeState) (tr : list ProviderCall)
  : HomeState * list ProviderCall :=
  let st1 := setUsdcError None (setIsLoadingUsdc true st) in
  let '(outcome, tr') := getUSDCBalance window address tr in
  let st2 :=
    match outcome with
    | Returned balance => setUsdcBalance (Some balance) st1
    | Threw err =>
        setUsdcError (Some (message_or "Failed to fetch USDC balance" err)) st1
    end in
  (setIsLoadingUsdc false st2, tr').

(** What the body of a balance card shows:
    [loading ? skeleton : error ? message : value !== null ? amount : null]. *)
Inductive Card : Type :=
  | CardSkeleton
  | CardError (message : string)
  | CardAmount (amount label : string)
  | CardEmpty.

Definition card (loading : bool) (err value : option string) (label : string)
  : Card :=
  if loading then CardSkeleton
  else if truthy err then
    match err with Some message => CardError message | None => CardEmpty end
  else
    match value with
    | Some amount => CardAmount amount label
    | None => CardEmpty
    end.

Definition ethCard (st : HomeState) : Card :=
  card (isLoadingBalance st) (error st) (balance st) "ETH".

Definition usdcCard (st : HomeState) : Card :=
  card (isLoadingUsdc st) (usdcError st) (usdcBalance st) "USDC".

End HomePage.

Module App.
Import Session Page_common.

(** What [App] returns:
    [!isLoggedIn ? <LoginPage/> : userAddress ? <HomePage/> : null]. *)
Inductive View : Type :=
  | ShowLoginPage
  | ShowHomePage (address : string)
  | ShowNothing.

Definition render (st : AppState) : View :=
  if negb (isLoggedIn st) then ShowLoginPage
  else if truthy (userAddress st) then
    match userAddress st with
    | Some address => ShowHomePage address
    | None => ShowNothing
    end
  else ShowNothing.

End App.

(* ===================================================================== *)
(** * App.tsx on the values it receives at run time *)
(* ===================================================================== *)

(** [Session] takes [handleLoginSuccess] at its declared type,
    [(address: string) => void].  The types are erased at run time: the
    argument is what [connectWallet] returned, element 0 of the wallet's
    answer behind the unchecked cast [as string[]], and [setUserAddress]
    and [localStorage.setItem] take whatever they are given.  [Runtime] is
    the same component with the [userAddress] cell holding any value. *)
Module Runtime.
Import Js Web3.

(** [Array.prototype.join(",")] on the strings of the elements. *)
Fixpoint join (parts : list string) : string :=
  match parts with
  | [] => EmptyString
  | [s] => s
  | s :: rest => s +:+ "," +:+ join rest
  end.

(** ToString, which [localStorage.setItem] applies to the value it is
    given; in an array [null] and [undefined] elements give the empty
    string. *)
Fixpoint ToString (v : JsValue) : string :=
  match v with
  | JsUndefined => "undefined"
  | JsNull => "null"
  | JsBool true => "true"
  | JsBool false => "false"
  | JsString s => s
  | JsBigInt z => (if z <? 0 then "-" else "") +:+ decimal (Z.abs z)
  | JsArray elems =>
      join (map (fun x => match x with
                          | JsUndefined | JsNull => EmptyString
                          | _ => ToString x
                          end) elems)
  end.

(** The two [useState] cells of [App]; [null] is [JsNull]. *)
Record AppState : Type := {
  isLoggedIn : bool;
  userAddress : JsValue
}.

Record Page : Type := {
  app : AppState;
  localStorage : gmap string string;
  providerCalls : list ProviderCall
}.

Inductive Stmt : Type :=
  | SetIsLoggedIn (b : bool)
  | SetUserAddress (v : JsValue)
  | StorageSetItem (key : string) (value : JsValue)
  | StorageRemoveItem (key : string).

Definition exec (pg : Page) (st : Stmt) : Page :=
  match st with
  | SetIsLoggedIn b =>
      {| app := {| isLoggedIn := b; userAddress := userAddress (app pg) |};
         localStorage := localStorage pg;
         providerCalls := providerCalls pg |}
  | SetUserAddress v =>
      {| app := {| isLoggedIn := isLoggedIn (app pg); userAddress := v |};
         localStorage := localStorage pg;
         providerCalls := providerCalls pg |}
  | StorageSetItem key value =>
      {| app := app pg;
         localStorage := <[key := ToString value]> (localStorage pg);
         providerCalls := providerCalls pg |}
  | StorageRemoveItem key =>
      {| app := app pg;
         localStorage := delete key (localStorage pg);
         providerCalls := providerCalls pg |}
  end.

Definition run (body : list Stmt) (pg : Page) : Page :=
  fold_left exec body pg.

(** [useState(false)] and [useState<string | null>(null)] *)
Definition initialState : AppState :=
  {| isLoggedIn := false; userAddress := JsNull |}.

(** The body of the effect run on mount; [getItem] gives a string or
    [null], and [if (savedAddress)] fails on [null] and on the empty
    string. *)
Definition restoreSession (pg : Page) : list Stmt :=
  match localStorage pg !! "userAddress" with
  | Some savedAddress =>
      if (String.length savedAddress =? 0)%nat then []
      else [SetUserAddress (JsString savedAddress); SetIsLoggedIn true]
  | None => []
  end.

Definition handleLoginSuccess (address : JsValue) : list Stmt :=
  [SetUserAddress address;
   SetIsLoggedIn true;
   StorageSetItem "userAddress" address].

Definition handleLogout : list Stmt :=
  [SetIsLoggedIn false;
   SetUserAddress JsNull;
   StorageRemoveItem "userAddress"].

Definition mount (storage : gmap string string) (calls : list ProviderCall)
  : Page :=
  let pg := {| app := initialState;
               localStorage := storage;
               providerCalls := calls |} in
  run (restoreSession pg) pg.



(** A value that is neither [null] nor [undefined]. *)
Definition present (v : JsValue) : Prop := v <> JsNull /\ v <> JsUndefined.


(** "authenticated implies address is present" *)
Definition session_invariant (st : AppState) : Prop :=
  isLoggedIn st = true -> present (userAddress st).


(** What [App] returns:
    [!isLoggedIn ? <LoginPage/> : userAddress ? <HomePage/> : null]. *)
Inductive View : Type :=
  | ShowLoginPage
  | ShowHomePage (address : JsValue)
  | ShowNothing.

Definition render (st : AppState) : View :=
  if negb (isLoggedIn st) then ShowLoginPage
  else if falsy (userAddress st) then ShowNothing
  else ShowHomePage (userAddress st).

(** A page of [Session], whose address is a string or [null], as a page
    of [Runtime]. *)
Definition lift (pg : Session.Page) : Page :=
  {| app :=
       {| isLoggedIn := Session.isLoggedIn (Session.app pg);
          userAddress :=
            match Session.userAddress (Session.app pg) with
            | Some a => JsString a
            | None => JsNull
            end |};
     localStorage := Session.localStorage pg;
     providerCalls := Session.providerCalls pg |}.

End Runtime.

(* ===================================================================== *)
(** * Properties *)
(* ===================================================================== *)

Module Js_facts.
Import Js.

Lemma length_append (s t : string) :
  String.length (s +:+ t) = (String.length s + String.length t)%nat.
Proof.
  induction s as [|c s IH]; [reflexivity|].
  change (String c s +:+ t) with (String c (s +:+ t)).
  cbn [String.length]. now rewrite IH.
Qed.

Lemma append_assoc (s t u : string) : (s +:+ t) +:+ u = s +:+ t +:+ u.
Proof.
  induction s as [|c s IH]; [reflexivity|].
  change ((String c s +:+ t) +:+ u) with (String c ((s +:+ t) +:+ u)).
  now rewrite IH.
Qed.

(** The first [length p] code units of [p ++ r]. *)
Lemma substring_prefix (p r : string) :
  String.substring 0 (String.length p) (p +:+ r) = p.
Proof.
  induction p as [|c p IH].
  - destruct r; reflexivity.
  - change (String c p +:+ r) with (String c (p +:+ r)).
    cbn [String.length String.substring]. now rewrite IH.
Qed.

(** Skipping [length p] code units of [p ++ r]. *)
Lemma substring_skip (p r : string) (n : nat) :
  String.substring (String.length p) n (p +:+ r) = String.substring 0 n r.
Proof.
  induction p as [|c p IH]; [reflexivity|].
  change (String c p +:+ r) with (String c (p +:+ r)).
  cbn [String.length String.substring]. exact IH.
Qed.

Lemma substring_all (s : string) :
  String.substring 0 (String.length s) s = s.
Proof.
  induction s as [|c s IH]; [reflexivity|].
  cbn [String.length String.substring]. now rewrite IH.
Qed.

(** Every string splits at any position not beyond its end. *)
Lemma split_at (n : nat) (s : string) :
  (n <= String.length s)%nat ->
  exists p r, s = p +:+ r /\ String.length p = n.
Proof.
  revert s. induction n as [|n IH]; intros s Hn.
  - exists EmptyString, s. split; reflexivity.
  - destruct s as [|c s]; cbn [String.length] in Hn; [lia|].
    destruct (IH s ltac:(lia)) as (p & r & -> & Hp).
    exists (String c p), r. split; [reflexivity|].
    cbn [String.length]. now rewrite Hp.
Qed.

(** [s.substring(0, n)] on [s = p ++ r] with [n = length p]. *)
Lemma js_substring_prefix (p r : string) :
  substring (p +:+ r) 0 (Z.of_nat (String.length p)) = p.
Proof.
  unfold substring, clamp. rewrite length_append.
  replace (Z.min _ _) with 0 by lia.
  replace (Z.max _ _ - 0) with (Z.of_nat (String.length p)) by lia.
  rewrite Nat2Z.id. apply substring_prefix.
Qed.

(** [s.substring(length p)] on [s = p ++ r]. *)
Lemma js_substring_from_suffix (p r : string) :
  substring_from (p +:+ r) (Z.of_nat (String.length p)) = r.
Proof.
  unfold substring_from, substring, clamp. rewrite length_append.
  replace (Z.min _ _) with (Z.of_nat (String.length p)) by lia.
  replace (Z.max _ _ - _) with (Z.of_nat (String.length r)) by lia.
  rewrite !Nat2Z.id, substring_skip. apply substring_all.
Qed.

End Js_facts.

Module Number_facts.
Import Js Spec Js_facts.

(** *** Binary digits *)

Lemma digits2_pos_size (p : positive) : digits2_pos p = Pos.size p.
Proof. induction p; cbn; congruence. Qed.

Lemma digits2_pos_bounds (p : positive) :
  2 ^ (Zpos (digits2_pos p) - 1) <= Zpos p < 2 ^ Zpos (digits2_pos p).
Proof.
  rewrite digits2_pos_size. split.
  - pose proof (Pos.size_le p) as H.
    apply Pos2Z.pos_le_pos in H. rewrite Pos2Z.inj_pow in H.
    replace (Zpos (Pos.size p)) with (Zpos (Pos.size p) - 1 + 1) in H by lia.
    rewrite Z.pow_add_r in H by lia. lia.
  - pose proof (Pos.size_gt p) as H.
    apply Pos2Z.pos_lt_pos in H. now rewrite Pos2Z.inj_pow in H.
Qed.

(** The number of binary digits is determined by the binade. *)
Lemma Zdigits2_unique (q d : Z) :
  2 ^ (d - 1) <= q < 2 ^ d -> 0 < d -> Zdigits2 q = d.
Proof.
  intros Hq Hd.
  assert (0 < q) by (pose proof (Z.pow_pos_nonneg 2 (d - 1)); lia).
  destruct q as [|p|p]; try lia. cbn [Zdigits2].
  pose proof (digits2_pos_bounds p) as Hp.
  set (d' := Zpos (digits2_pos p)) in *.
  assert (0 < d') by (unfold d'; lia).
  destruct (Z.lt_trichotomy d d') as [Hlt | [Heq | Hgt]]; [|congruence|].
  - assert (2 ^ d <= 2 ^ (d' - 1)) by (apply Z.pow_le_mono_r; lia). lia.
  - assert (2 ^ d' <= 2 ^ (d - 1)) by (apply Z.pow_le_mono_r; lia). lia.
Qed.

Lemma iter_xO_value (p k : positive) :
  Zpos (Pos.iter xO p k) = Zpos p * 2 ^ Zpos k.
Proof.
  induction k as [|k IH] using Pos.peano_ind.
  - cbn. lia.
  - rewrite Pos.iter_succ, Pos2Z.inj_succ, Z.pow_succ_r by lia.
    rewrite Pos2Z.inj_xO, IH. lia.
Qed.

(** *** Shifting and rounding *)

Lemma loc_of_shr_record_of_loc (m : Z) (l : location) :
  loc_of_shr_record (shr_record_of_loc m l) = l.
Proof. destruct l as [|[]]; reflexivity. Qed.

Lemma shr_m_record_of_loc (m : Z) (l : location) :
  shr_m (shr_record_of_loc m l) = m.
Proof. destruct l as [|[]]; reflexivity. Qed.

Lemma shr_record_of_loc_of_shr (mrs : shr_record) :
  shr_record_of_loc (shr_m mrs) (loc_of_shr_record mrs) = mrs.
Proof. destruct mrs as [m [] []]; reflexivity. Qed.

(** On a mantissa of [prec] digits nothing is shifted out. *)
Lemma shr_fexp_53 (q e : Z) (l : location) :
  2 ^ 52 <= q < 2 ^ 53 -> emin prec emax <= e ->
  shr_fexp prec emax q e l = (shr_record_of_loc q l, e).
Proof.
  intros Hq He. unfold shr_fexp.
  rewrite (Zdigits2_unique q 53) by (cbn; lia).
  replace (fexp prec emax (53 + e) - e) with 0
    by (unfold fexp, emin, prec, emax in *; lia).
  reflexivity.
Qed.

(** On a mantissa of [prec + 1] digits one digit is shifted out. *)
Lemma shr_fexp_54 (q e : Z) (l : location) :
  2 ^ 53 <= q < 2 ^ 54 -> emin prec emax <= e + 1 ->
  shr_fexp prec emax q e l = (shr_1 (shr_record_of_loc q l), e + 1).
Proof.
  intros Hq He. unfold shr_fexp.
  rewrite (Zdigits2_unique q 54) by (cbn; lia).
  replace (fexp prec emax (54 + e) - e) with 1
    by (unfold fexp, emin, prec, emax in *; lia).
  reflexivity.
Qed.

(** One shift halves the mantissa and the location follows. *)
Lemma shr_1_spec (q num den : Z) :
  0 < q -> 0 <= num < den ->
  shr_m (shr_1 (shr_record_of_loc q (location_of num den))) = q / 2 /\
  loc_of_shr_record (shr_1 (shr_record_of_loc q (location_of num den)))
    = location_of (q mod 2 * den + num) (2 * den).
Proof.
  intros Hq Hn.
  assert (Hloc : forall r, (r = 0 \/ r = 1) ->
            location_of (r * den + num) (2 * den) =
            match r, location_of num den with
            | 0, loc_Exact => loc_Exact
            | 0, _ => loc_Inexact Lt
            | _, loc_Exact => loc_Inexact Eq
            | _, _ => loc_Inexact Gt
            end).
  { intros r Hr. unfold location_of.
    destruct (Z.eqb_spec num 0) as [-> | Hnz].
    - destruct Hr as [-> | ->]; cbn [Z.mul Z.add Z.eqb].
      + reflexivity.
      + replace (1 * den + 0) with den by lia.
        destruct (Z.eqb_spec den 0); [lia|].
        now rewrite Z.compare_refl.
    - destruct Hr as [-> | ->].
      + replace (0 * den + num) with num by lia.
        destruct (Z.eqb_spec num 0); [lia|].
        replace (2 * num ?= 2 * den) with Lt by (symmetry; apply Z.compare_lt_iff; lia).
        now destruct (2 * num ?= den).
      + destruct (Z.eqb_spec (1 * den + num) 0); [lia|].
        replace (2 * (1 * den + num) ?= 2 * den) with Gt
          by (symmetry; apply Z.compare_gt_iff; lia).
        now destruct (2 * num ?= den). }
  destruct q as [|p|p]; try lia.
  destruct p as [p|p|].
  - rewrite Pos2Z.inj_xI.
    replace ((2 * Zpos p + 1) / 2) with (Zpos p) by (apply Z.div_unique with 1; lia).
    replace ((2 * Zpos p + 1) mod 2) with 1 by (apply Z.mod_unique with (Zpos p); lia).
    rewrite (Hloc 1) by auto.
    destruct (location_of num den) as [|[]]; split; reflexivity.
  - rewrite Pos2Z.inj_xO.
    replace ((2 * Zpos p) / 2) with (Zpos p) by (apply Z.div_unique with 0; lia).
    replace ((2 * Zpos p) mod 2) with 0 by (apply Z.mod_unique with (Zpos p); lia).
    rewrite (Hloc 0) by auto.
    destruct (location_of num den) as [|[]]; split; reflexivity.
  - change (1 / 2) with 0. change (1 mod 2) with 1.
    rewrite (Hloc 1) by auto.
    destruct (location_of num den) as [|[]]; split; reflexivity.
Qed.

(** Rounding to nearest, ties to even: at most half a unit away. *)
Lemma round_nearest_even_spec (q num den : Z) :
  0 <= num < den ->
  let q' := round_nearest_even q (location_of num den) in
  q <= q' <= q + 1 /\ Z.abs (2 * (q' * den - (q * den + num))) <= den.
Proof.
  intros Hn. unfold location_of, round_nearest_even.
  destruct (Z.eqb_spec num 0) as [-> | Hnz]; cbn zeta.
  - split; lia.
  - destruct (Z.compare_spec (2 * num) den).
    + destruct (Z.even q); split; lia.
    + split; lia.
    + split; lia.
Qed.

(** [binary_round_aux] on a mantissa of [prec] digits: the result is
    finite, normal, and at most half a unit in the last place away. *)
Lemma binary_round_aux_53 (q e num den : Z) :
  2 ^ 52 <= q < 2 ^ 53 ->
  emin prec emax <= e -> e + 1 <= emax - prec ->
  0 <= num < den ->
  exists m k,
    binary_round_aux prec emax false q e (location_of num den)
      = S754_finite false m (e + k) /\
    0 <= k <= 1 /\
    2 ^ 52 <= Zpos m < 2 ^ 53 /\
    Z.abs (2 * (Zpos m * 2 ^ k * den - (q * den + num))) <= 2 ^ k * den.
Proof.
  intros Hq He Hemax Hn.
  unfold binary_round_aux.
  rewrite (shr_fexp_53 q e _ Hq He).
  rewrite shr_m_record_of_loc, loc_of_shr_record_of_loc.
  destruct (round_nearest_even_spec q num den Hn) as [Hq' Herr].
  set (q' := round_nearest_even q (location_of num den)) in *.
  destruct (Z.lt_ge_cases q' (2 ^ 53)) as [Hlt | Hge].
  - rewrite (shr_fexp_53 q' e loc_Exact) by lia. cbn [shr_record_of_loc shr_m].
    destruct q' as [|m|m]; try lia.
    replace (e <=? emax - prec) with true by (symmetry; apply Z.leb_le; lia).
    exists m, 0. rewrite Z.add_0_r, Z.pow_0_r, Z.mul_1_r, Z.mul_1_l.
    repeat split; try lia.
  - assert (Heq : q' = 2 ^ 53) by lia.
    rewrite (shr_fexp_54 q' (e) loc_Exact) by (unfold emin, prec, emax in *; lia).
    rewrite Heq in *. cbn [shr_record_of_loc].
    change (shr_m (shr_1 {| shr_m := 2 ^ 53; shr_r := false; shr_s := false |}))
      with (2 ^ 52).
    change (2 ^ 52) with (Zpos (2 ^ 52)%positive) at 1. cbv iota.
    replace (e + 1 <=? emax - prec) with true by (symmetry; apply Z.leb_le; lia).
    exists (2 ^ 52)%positive, 1. repeat split; try lia.
Qed.

(** [binary_round_aux] on a mantissa of [prec] or [prec + 1] digits. *)
Lemma binary_round_aux_54 (q e num den : Z) :
  2 ^ 52 <= q < 2 ^ 54 ->
  emin prec emax <= e -> e + 2 <= emax - prec ->
  0 <= num < den ->
  exists m k,
    binary_round_aux prec emax false q e (location_of num den)
      = S754_finite false m (e + k) /\
    0 <= k <= 2 /\
    2 ^ 52 <= Zpos m < 2 ^ 53 /\
    Z.abs (2 * (Zpos m * 2 ^ k * den - (q * den + num))) <= 2 ^ k * den.
Proof.
  intros Hq He Hemax Hn.
  destruct (Z.lt_ge_cases q (2 ^ 53)) as [Hlt | Hge].
  - destruct (binary_round_aux_53 q e num den) as (m & k & Hr & Hk & Hm & Herr);
      try lia.
    exists m, k. repeat split; try lia. exact Hr.
  - destruct (shr_1_spec q num den ltac:(lia) Hn) as [Hshm Hshl].
    assert (Hstep :
      binary_round_aux prec emax false q e (location_of num den) =
      binary_round_aux prec emax false (q / 2) (e + 1)
        (location_of (q mod 2 * den + num) (2 * den))).
    { unfold binary_round_aux.
      rewrite (shr_fexp_54 q e) by (unfold emin, prec, emax in *; lia).
      rewrite (shr_fexp_53 (q / 2) (e + 1))
        by (try split; try apply Z.div_le_lower_bound;
            try apply Z.div_lt_upper_bound; unfold emin, prec, emax in *; lia).
      rewrite shr_m_record_of_loc, loc_of_shr_record_of_loc.
      now rewrite Hshm, Hshl. }
    pose proof (Z.div_mod q 2 ltac:(lia)) as Hdm.
    pose proof (Z.mod_pos_bound q 2 ltac:(lia)) as Hmod.
    destruct (binary_round_aux_53 (q / 2) (e + 1) (q mod 2 * den + num) (2 * den))
      as (m & k & Hr & Hk & Hm & Herr); try nia.
    exists m, (k + 1). rewrite Hstep, Hr.
    replace (e + 1 + k) with (e + (k + 1)) by lia.
    rewrite Z.pow_add_r by lia. change (2 ^ 1) with 2.
    repeat split; lia.
Qed.

Lemma binary_round_aux_exact (q e : Z) :
  2 ^ 52 <= q < 2 ^ 53 ->
  emin prec emax <= e -> e <= emax - prec ->
  binary_round_aux prec emax false q e loc_Exact
    = S754_finite false (Z.to_pos q) e.
Proof.
  intros Hq He Hemax. unfold binary_round_aux.
  rewrite (shr_fexp_53 q e _ Hq He).
  cbn [shr_record_of_loc shr_m loc_of_shr_record round_nearest_even].
  rewrite (shr_fexp_53 q e _ Hq He). cbn [shr_record_of_loc shr_m].
  destruct q as [|m|m]; try lia.
  replace (e <=? emax - prec) with true by (symmetry; apply Z.leb_le; lia).
  reflexivity.
Qed.

(** *** Number(b) below 2^53 is exact *)

Lemma Number_of_bigint_exact (b : Z) :
  0 < b < 2 ^ 53 ->
  exists m e,
    Number_of_bigint b = S754_finite false m (- e) /\
    0 <= e <= 52 /\
    2 ^ 52 <= Zpos m < 2 ^ 53 /\
    Zpos m = b * 2 ^ e.
Proof.
  intros Hb. destruct b as [|p|p]; try lia.
  unfold Number_of_bigint, binary_normalize, binary_round.
  pose proof (digits2_pos_bounds p) as Hd.
  set (d := Zpos (digits2_pos p)) in *.
  assert (Hd53 : 1 <= d <= 53).
  { split; [unfold d; lia|].
    destruct (Z.le_gt_cases d 53) as [|Hgt]; [assumption|].
    assert (2 ^ 53 <= 2 ^ (d - 1)) by (apply Z.pow_le_mono_r; lia). lia. }
  replace (fexp prec emax (d + 0)) with (d - 53)
    by (unfold fexp, emin, prec, emax; lia).
  unfold shl_align.
  destruct (d - 53 - 0) as [|k|k] eqn:Hk; try lia.
  - assert (d = 53) by lia. subst d.
    rewrite binary_round_aux_exact
      by (unfold emin, prec, emax; replace (Zpos (digits2_pos p)) with 53 in *; lia).
    exists p, 0. cbn [Z.opp].
    replace (Zpos (digits2_pos p)) with 53 in Hd by lia.
    repeat split; lia.
  - assert (Hkd : Zpos k = 53 - d) by lia.
    assert (Hval : Zpos (Pos.iter xO p k) = Zpos p * 2 ^ (53 - d))
      by (rewrite iter_xO_value; now rewrite Hkd).
    assert (Hpow : 2 ^ (d - 1) * 2 ^ (53 - d) = 2 ^ 52)
      by (rewrite <- Z.pow_add_r by lia; f_equal; lia).
    assert (Hpow' : 2 ^ d * 2 ^ (53 - d) = 2 ^ 53)
      by (rewrite <- Z.pow_add_r by lia; f_equal; lia).
    assert (0 < 2 ^ (53 - d)) by (apply Z.pow_pos_nonneg; lia).
    assert (Hrange : 2 ^ 52 <= Zpos (Pos.iter xO p k) < 2 ^ 53)
      by (rewrite Hval; nia).
    rewrite binary_round_aux_exact
      by (try exact Hrange; unfold emin, prec, emax; lia).
    exists (Pos.iter xO p k), (53 - d).
    replace (- (53 - d)) with (d - 53) by lia.
    repeat split; try lia; assumption.
Qed.

(** *** Division *)

Lemma new_location_spec (den num : Z) :
  0 <= num < den -> new_location den num = location_of num den.
Proof.
  intros Hn.
  unfold new_location, new_location_even, new_location_odd, location_of.
  destruct (Z.even den) eqn:Heven; [reflexivity|].
  destruct (num =? 0); [reflexivity|].
  assert (Hodd : Z.odd den = true) by (rewrite <- Z.negb_even, Heven; reflexivity).
  apply Z.odd_spec in Hodd. destruct Hodd as [h Hh].
  destruct (Z.compare_spec (2 * num + 1) den);
    destruct (Z.compare_spec (2 * num) den); try reflexivity; lia.
Qed.

Lemma SFdiv_core_53 (m1 m2 : positive) (e1 e2 : Z) :
  2 ^ 52 <= Zpos m1 < 2 ^ 53 -> 2 ^ 52 <= Zpos m2 < 2 ^ 53 ->
  emin prec emax <= e1 - e2 - 53 ->
  SFdiv_core_binary prec emax (Zpos m1) e1 (Zpos m2) e2 =
    (Zpos m1 * 2 ^ 53 / Zpos m2, e1 - e2 - 53,
     new_location (Zpos m2) ((Zpos m1 * 2 ^ 53) mod Zpos m2)).
Proof.
  intros H1 H2 He. unfold SFdiv_core_binary.
  rewrite (Zdigits2_unique (Zpos m1) 53), (Zdigits2_unique (Zpos m2) 53)
    by (cbn; lia).
  replace (Z.min (fexp prec emax (53 + e1 - (53 + e2))) (e1 - e2))
    with (e1 - e2 - 53) by (unfold fexp, emin, prec, emax in *; lia).
  replace (e1 - e2 - (e1 - e2 - 53)) with 53 by lia.
  cbv iota. rewrite Z.shiftl_mul_pow2 by lia.
  unfold Z.div, Z.modulo.
  now destruct (Z.div_eucl (Zpos m1 * 2 ^ 53) (Zpos m2)).
Qed.

(** The quotient of two normal Numbers, away from underflow and overflow,
    is normal and at most half a unit in the last place from the exact
    quotient. *)
Lemma Number_div_53 (m1 m2 : positive) (e1 e2 : Z) :
  2 ^ 52 <= Zpos m1 < 2 ^ 53 -> 2 ^ 52 <= Zpos m2 < 2 ^ 53 ->
  emin prec emax <= e1 - e2 - 53 -> e1 - e2 - 51 <= emax - prec ->
  exists m k,
    Number_div (S754_finite false m1 e1) (S754_finite false m2 e2)
      = S754_finite false m (e1 - e2 - 53 + k) /\
    0 <= k <= 2 /\
    2 ^ 52 <= Zpos m < 2 ^ 53 /\
    Z.abs (2 * (Zpos m * 2 ^ k * Zpos m2 - Zpos m1 * 2 ^ 53))
      <= 2 ^ k * Zpos m2.
Proof.
  intros H1 H2 He Hemax. unfold Number_div, SFdiv.
  rewrite (SFdiv_core_53 m1 m2 e1 e2 H1 H2 He). cbn [xorb].
  pose proof (Z.div_mod (Zpos m1 * 2 ^ 53) (Zpos m2) ltac:(lia)) as Hdm.
  pose proof (Z.mod_pos_bound (Zpos m1 * 2 ^ 53) (Zpos m2) ltac:(lia)) as Hmod.
  rewrite new_location_spec by exact Hmod.
  set (q := Zpos m1 * 2 ^ 53 / Zpos m2) in *.
  set (r := (Zpos m1 * 2 ^ 53) mod Zpos m2) in *.
  assert (Hq : 2 ^ 52 <= q < 2 ^ 54).
  { split.
    - apply Z.div_le_lower_bound; lia.
    - apply Z.div_lt_upper_bound; lia. }
  destruct (binary_round_aux_54 q (e1 - e2 - 53) r (Zpos m2))
    as (m & k & Hr & Hk & Hm & Herr); try lia.
  exists m, k. repeat split; try lia. exact Hr.
Qed.

(** *** The quotient computed by getUSDCBalance *)

Lemma usdc_quotient (b : Z) :
  0 < b < 2 ^ 53 ->
  exists m j,
    Number_div (Number_of_bigint b) (Number_of_bigint 1000000)
      = S754_finite false m (- j) /\
    19 <= j /\
    2 ^ 52 <= Zpos m < 2 ^ 53 /\
    Z.abs (2 * (10 ^ 6 * Zpos m - b * 2 ^ j)) <= 10 ^ 6.
Proof.
  intros Hb.
  destruct (Number_of_bigint_exact b Hb) as (m1 & e & -> & He & Hm1 & Hv).
  change (Number_of_bigint 1000000)
    with (S754_finite false 8589934592000000 (-33)).
  destruct (Number_div_53 m1 8589934592000000 (- e) (-33))
    as (m & k & Hr & Hk & Hm & Herr);
    try (unfold emin, prec, emax; lia).
  set (j := e + 20 - k).
  assert (Hj18 : 18 <= j) by (unfold j; lia).
  assert (Herr' : Z.abs (2 * (10 ^ 6 * Zpos m - b * 2 ^ j)) <= 10 ^ 6).
  { set (P := 2 ^ k * 2 ^ 33).
    assert (HP : 0 < P) by (unfold P; lia).
    assert (HjP : 2 ^ j * P = 2 ^ e * 2 ^ 53).
    { unfold P, j. rewrite <- !Z.pow_add_r by lia. f_equal. lia. }
    assert (Heq : 2 * (Zpos m * 2 ^ k * 8589934592000000 - Zpos m1 * 2 ^ 53)
                  = 2 * (10 ^ 6 * Zpos m - b * 2 ^ j) * P).
    { rewrite Hv. change 8589934592000000 with (10 ^ 6 * 2 ^ 33).
      unfold P in *. nia. }
    rewrite Heq, Z.abs_mul, (Z.abs_eq P) in Herr by lia.
    change 8589934592000000 with (10 ^ 6 * 2 ^ 33) in Herr.
    replace (2 ^ k * (10 ^ 6 * 2 ^ 33)) with (10 ^ 6 * P) in Herr
      by (unfold P; lia).
    apply Z.mul_le_mono_pos_r with P; assumption. }
  exists m, j. repeat split; try lia.
  - rewrite Hr. f_equal. unfold j. lia.
  - destruct (Z.eq_dec j 18) as [Hj | Hj]; [|lia].
    rewrite Hj in Herr'. lia.
Qed.

(** *** Decimal digits *)

Lemma decimal_small (n : Z) :
  n < 10 -> decimal n = String (digit n) EmptyString.
Proof.
  intros H. unfold decimal. cbn [decimal_fuel].
  now replace (n <? 10) with true by (symmetry; apply Z.ltb_lt; lia).
Qed.

(** Any fuel above the binary logarithm gives the same digits. *)
Lemma decimal_fuel_irrelevant (f1 f2 : nat) (n : Z) :
  0 <= n < 2 ^ Z.of_nat (S f1) -> n < 2 ^ Z.of_nat (S f2) ->
  decimal_fuel (S f1) n = decimal_fuel (S f2) n.
Proof.
  revert f2 n. induction f1 as [|f1 IH]; intros f2 n H1 H2.
  - cbn [decimal_fuel].
    now replace (n <? 10) with true by (symmetry; apply Z.ltb_lt; cbn in H1; lia).
  - change (decimal_fuel (S (S f1)) n)
      with (if n <? 10 then String (digit n) EmptyString
            else decimal_fuel (S f1) (n / 10)
                 +:+ String (digit (n mod 10)) EmptyString).
    change (decimal_fuel (S f2) n)
      with (if n <? 10 then String (digit n) EmptyString
            else decimal_fuel f2 (n / 10)
                 +:+ String (digit (n mod 10)) EmptyString).
    destruct (Z.ltb_spec n 10) as [|Hge]; [reflexivity|].
    destruct f2 as [|f2]; [cbn in H2; lia|].
    f_equal. rewrite Nat2Z.inj_succ, Z.pow_succ_r in H1, H2 by lia.
    apply IH.
    + split; [apply Z.div_pos; lia|]. apply Z.div_lt_upper_bound; lia.
    + apply Z.div_lt_upper_bound; lia.
Qed.

Lemma decimal_step (n : Z) :
  10 <= n ->
  decimal n = decimal (n / 10) +:+ String (digit (n mod 10)) EmptyString.
Proof.
  intros Hn. unfold decimal at 1.
  change (decimal_fuel (S (Z.to_nat (Z.log2 n))) n)
    with (if n <? 10 then String (digit n) EmptyString
          else decimal_fuel (Z.to_nat (Z.log2 n)) (n / 10)
               +:+ String (digit (n mod 10)) EmptyString).
  replace (n <? 10) with false by (symmetry; apply Z.ltb_ge; lia).
  f_equal. unfold decimal.
  pose proof (Z.log2_spec n ltac:(lia)) as Hlog.
  assert (Hl3 : 3 <= Z.log2 n) by (apply Z.log2_le_pow2; lia).
  destruct (Z.to_nat (Z.log2 n)) as [|f] eqn:Hf; [lia|].
  assert (Hfz : Z.of_nat (S f) = Z.log2 n) by lia.
  assert (Hq : 0 < n / 10) by (apply Z.div_str_pos; lia).
  apply decimal_fuel_irrelevant.
  - split; [lia|]. rewrite Hfz.
    apply Z.div_lt_upper_bound; [lia|].
    rewrite Z.pow_succ_r in Hlog by apply Z.log2_nonneg. lia.
  - pose proof (Z.log2_spec (n / 10) Hq) as Hlog'.
    rewrite Nat2Z.inj_succ, Z2Nat.id by apply Z.log2_nonneg. lia.
Qed.

Lemma decimal_length_pos (n : Z) : (1 <= String.length (decimal n))%nat.
Proof.
  destruct (Z.lt_ge_cases n 10) as [Hlt | Hge].
  - rewrite decimal_small by assumption. cbn. lia.
  - rewrite decimal_step, length_append by assumption. cbn. lia.
Qed.

(** *** toFixed(2) *)

Lemma toFixed_digits_2 (n : Z) : 0 <= n -> toFixed_digits 2 n = hundredths n.
Proof.
  intros Hn. unfold toFixed_digits, hundredths. cbn [Nat.eqb].
  destruct (Z.lt_ge_cases n 10) as [H10 | H10].
  - rewrite (decimal_small n H10).
    rewrite Z.div_small, (Z.div_small n 10), Z.mod_0_l, (Z.mod_small n 10)
      by lia.
    reflexivity.
  - rewrite (decimal_step n H10).
    destruct (Z.lt_ge_cases n 100) as [H100 | H100].
    + rewrite (decimal_small (n / 10))
        by (apply Z.div_lt_upper_bound; lia).
      rewrite (Z.div_small n 100), (Z.mod_small (n / 10) 10)
        by (try split; try apply Z.div_pos; try apply Z.div_lt_upper_bound; lia).
      reflexivity.
    + assert (H10' : 10 <= n / 10) by (apply Z.div_le_lower_bound; lia).
      rewrite (decimal_step (n / 10) H10').
      rewrite Z.div_div by lia. change (10 * 10) with 100.
      set (a := decimal (n / 100)).
      pose proof (decimal_length_pos (n / 100)) as Ha. fold a in Ha.
      rewrite append_assoc.
      change (String (digit (n / 10 mod 10)) "" +:+ String (digit (n mod 10)) "")
        with (String (digit (n / 10 mod 10)) (String (digit (n mod 10)) "")).
      set (r := String (digit (n / 10 mod 10)) (String (digit (n mod 10)) "")).
      assert (Hlen : String.length (a +:+ r) = (String.length a + 2)%nat)
        by (rewrite length_append; reflexivity).
      rewrite Hlen.
      replace (String.length a + 2 <=? 2)%nat with false
        by (symmetry; apply Nat.leb_gt; lia).
      rewrite Hlen.
      replace (Z.of_nat (String.length a + 2) - Z.of_nat 2)
        with (Z.of_nat (String.length a)) by lia.
      now rewrite js_substring_prefix, js_substring_from_suffix.
Qed.

(** The string [getUSDCBalance] builds from a raw balance below 2^53. *)
Lemma usdc_string_spec (b : Z) :
  0 <= b < 2 ^ 53 ->
  exists n,
    Z.abs (10 ^ 4 * n - b) <= 5000 /\
    toFixed 2 (Number_div (Number_of_bigint b) (Number_of_bigint 1000000))
      = hundredths n.
Proof.
  intros Hb.
  destruct (Z.eq_dec b 0) as [-> | Hnz].
  - exists 0. split; [cbn; lia | reflexivity].
  - destruct (usdc_quotient b ltac:(lia)) as (m & j & -> & Hj & Hm & Herr).
    assert (HD : 2 ^ 19 <= 2 ^ j) by (apply Z.pow_le_mono_r; lia).
    unfold toFixed, finite_geb, nearest_scaled.
    replace (0 <=? - j) with false by (symmetry; apply Z.leb_gt; lia).
    rewrite Z.opp_involutive.
    replace (10 ^ 21 * 2 ^ j <=? Zpos m) with false
      by (symmetry; apply Z.leb_gt; nia).
    change (10 ^ Z.of_nat 2) with 100.
    set (D := 2 ^ j) in *.
    set (n := (2 * (Zpos m * 100) + D) / (2 * D)).
    assert (Hdm : 2 * D * n <= 2 * (Zpos m * 100) + D < 2 * D * n + 2 * D).
    { pose proof (Z.div_mod (2 * (Zpos m * 100) + D) (2 * D) ltac:(lia)).
      pose proof (Z.mod_pos_bound (2 * (Zpos m * 100) + D) (2 * D) ltac:(lia)).
      fold n in H. lia. }
    assert (0 <= n) by (apply Z.div_pos; lia).
    exists n. split.
    + change (2 ^ 19) with 524288 in HD. change (10 ^ 6) with 1000000 in Herr.
      change (10 ^ 4) with 10000. nia.
    + cbn [append]. now rewrite toFixed_digits_2.
Qed.

End Number_facts.

Module Web3_facts.
Import Js Web3 Spec Js_facts.

(** *** formatAddress *)

Lemma formatAddress_short (address : string) :
  (String.length address < 10)%nat -> formatAddress address = address.
Proof.
  intros H. unfold formatAddress.
  replace (Z.of_nat (String.length address) <? 10) with true
    by (symmetry; apply Z.ltb_lt; lia).
  now rewrite orb_true_r.
Qed.

(** On [p ++ mid ++ q] with 6 code units in [p] and 4 in [q], the result is
    [p ++ "..." ++ q]. *)
Lemma formatAddress_long (p mid q : string) :
  String.length p = 6%nat -> String.length q = 4%nat ->
  formatAddress (p +:+ mid +:+ q) = p +:+ "..." +:+ q.
Proof.
  intros Hp Hq. unfold formatAddress.
  assert (Hlen : String.length (p +:+ mid +:+ q)
                 = (10 + String.length mid)%nat)
    by (rewrite !length_append; lia).
  rewrite Hlen.
  replace ((10 + String.length mid =? 0)%nat) with false
    by (symmetry; apply Nat.eqb_neq; lia).
  replace (Z.of_nat (10 + String.length mid) <? 10) with false
    by (symmetry; apply Z.ltb_ge; lia).
  cbn [orb].
  f_equal.
  - replace 6 with (Z.of_nat (String.length p)) by lia.
    apply js_substring_prefix.
  - f_equal.
    rewrite <- append_assoc.
    replace (Z.of_nat (10 + String.length mid) - 4)
      with (Z.of_nat (String.length (p +:+ mid)))
      by (rewrite length_append; lia).
    apply js_substring_from_suffix.
Qed.

(** Every string of at least 10 code units is [p ++ mid ++ q] with 6 code
    units in [p] and 4 in [q]. *)
Lemma split_6_4 (s : string) :
  (10 <= String.length s)%nat ->
  exists p mid q,
    s = p +:+ mid +:+ q /\ String.length p = 6%nat /\ String.length q = 4%nat.
Proof.
  intros H.
  destruct (split_at 6 s ltac:(lia)) as (p & r & -> & Hp).
  rewrite length_append in H.
  destruct (split_at (String.length r - 4) r ltac:(lia)) as (mid & q & -> & Hm).
  rewrite length_append in H, Hm.
  exists p, mid, q. repeat split; [assumption | lia].
Qed.

(** C5: [formatAddress] returns a string of fewer than 10 code units
    unchanged; on a longer one it returns its first 6 code units, then
    "...", then its last 4, which makes 13 code units. *)
Theorem formatAddress_spec (address : string) :
  ((String.length address < 10)%nat -> formatAddress address = address) /\
  ((10 <= String.length address)%nat ->
   exists p mid q,
     address = p +:+ mid +:+ q /\
     String.length p = 6%nat /\ String.length q = 4%nat /\
     formatAddress address = p +:+ "..." +:+ q /\
     String.length (formatAddress address) = 13%nat).
Proof.
  split; [apply formatAddress_short|].
  intros H. destruct (split_6_4 address H) as (p & mid & q & -> & Hp & Hq).
  exists p, mid, q. rewrite (formatAddress_long p mid q Hp Hq).
  repeat split; try assumption.
  rewrite !length_append, Hp, Hq. reflexivity.
Qed.

Lemma formatAddress_spec_witness :
  formatAddress "0x12" = "0x12" /\
  exists p mid q,
    "0x1234567890abcdef1234567890abcdef12345678" = p +:+ mid +:+ q /\
    String.length p = 6%nat /\ String.length q = 4%nat /\
    formatAddress "0x1234567890abcdef1234567890abcdef12345678"
      = p +:+ "..." +:+ q /\
    String.length (formatAddress "0x1234567890abcdef1234567890abcdef12345678")
      = 13%nat.
Proof.
  split.
  - apply (proj1 (formatAddress_spec "0x12")). simpl. lia.
  - apply (proj2 (formatAddress_spec
                    "0x1234567890abcdef1234567890abcdef12345678")).
    simpl. lia.
Defined.

Example formatAddress_example :
  formatAddress "0x1234567890abcdef1234567890abcdef12345678" = "0x1234...5678".
Proof. reflexivity. Qed.

(** C10: [formatAddress] is idempotent on every string. *)
Theorem formatAddress_idempotent (s : string) :
  formatAddress (formatAddress s) = formatAddress s.
Proof.
  destruct (Nat.lt_ge_cases (String.length s) 10) as [Hlt | Hge].
  - now rewrite !(formatAddress_short s Hlt).
  - destruct (split_6_4 s Hge) as (p & mid & q & -> & Hp & Hq).
    rewrite (formatAddress_long p mid q Hp Hq).
    apply (formatAddress_long p "..." q Hp Hq).
Qed.

(** *** connectWallet *)

(** [connectWallet] with a provider present, in terms of the provider's
    answer to [eth_requestAccounts]. *)
Lemma connectWallet_with_provider (window : Window) (p : EthereumProvider)
    (tr : list ProviderCall) :
  ethereum window = Some p ->
  connectWallet window tr =
    (match request p requestAccounts with
     | Returned accounts =>
         if falsy accounts || length_is_zero accounts then
           Threw (ErrorObj
             "Failed to connect wallet: No accounts found. Please connect MetaMask.")
         else Returned (index0 accounts)
     | Threw (ErrorObj message) =>
         Threw (ErrorObj ("Failed to connect wallet: " +:+ message))
     | Threw (NonError v) => Threw (NonError v)
     end,
     tr ++ [CallRequest requestAccounts]).
Proof.
  intros Hp.
  unfold connectWallet, checkMetaMask, try_catch, bind, ethereum_request,
    await_call.
  rewrite Hp. cbn [negb]. fold requestAccounts.
  destruct (request p requestAccounts) as [accounts | [message | v]];
    [|reflexivity..].
  destruct (falsy accounts || length_is_zero accounts); reflexivity.
Qed.

(** C1: without a wallet provider ([checkMetaMask] is false),
    [connectWallet] throws the "MetaMask is not installed" error and the
    trace of provider calls is left as it was. *)
Theorem connectWallet_no_provider (window : Window) (tr : list ProviderCall) :
  checkMetaMask window = false ->
  connectWallet window tr =
    (Threw (ErrorObj
       "MetaMask is not installed. Please install MetaMask extension."),
     tr).
Proof.
  intros H. unfold connectWallet. rewrite H. reflexivity.
Qed.

Lemma connectWallet_no_provider_witness :
  checkMetaMask {| ethereum := None |} = false /\
  connectWallet {| ethereum := None |} [] =
    (Threw (ErrorObj
       "MetaMask is not installed. Please install MetaMask extension."),
     []).
Proof.
  split; [reflexivity|].
  apply (connectWallet_no_provider {| ethereum := None |} []). reflexivity.
Defined.

(** C2: when the provider answers [eth_requestAccounts] with a non-empty
    list of accounts, [connectWallet] returns the first of them, after that
    one call. *)
Theorem connectWallet_first_account (window : Window) (p : EthereumProvider)
    (first : string) (others : list string) (tr : list ProviderCall) :
  ethereum window = Some p ->
  request p requestAccounts
    = Returned (JsArray (map JsString (first :: others))) ->
  connectWallet window tr
    = (Returned (JsString first), tr ++ [CallRequest requestAccounts]).
Proof.
  intros Hp Hreq.
  rewrite (connectWallet_with_provider window p tr Hp), Hreq.
  reflexivity.
Qed.

Lemma connectWallet_first_account_witness :
  connectWallet
    (window_answering (Returned (JsArray [JsString "0xABC..."; JsString "0xDEF..."])))
    []
  = (Returned (JsString "0xABC..."), [CallRequest requestAccounts]).
Proof.
  apply (connectWallet_first_account
           (window_answering
              (Returned (JsArray [JsString "0xABC..."; JsString "0xDEF..."])))
           (provider_answering
              (Returned (JsArray [JsString "0xABC..."; JsString "0xDEF..."])))
           "0xABC..." ["0xDEF..."] []); reflexivity.
Defined.

(** *** The failures of connectWallet *)

(** The failure on an empty account list is the very failure obtained from
    a provider that raises [Error("No accounts found. Please connect
    MetaMask.")]: the [throw] sits inside the [try] block and goes through
    the same [catch]. *)
Lemma connectWallet_no_accounts_not_distinct :
  ~ no_accounts_failure_is_distinct.
Proof.
  intros H.
  apply (H (provider_answering (Returned (JsArray [])))
           (provider_answering
              (Threw (ErrorObj "No accounts found. Please connect MetaMask.")))
           "No accounts found. Please connect MetaMask." []);
    reflexivity.
Qed.

(** C3, amended: on an empty account list [connectWallet] throws an [Error]
    whose message is "Failed to connect wallet: No accounts found. Please
    connect MetaMask."; an [Error] raised by the provider is rethrown as an
    [Error] whose message is "Failed to connect wallet: " followed by the
    provider's message; any other thrown value is rethrown as it is. *)
Theorem connectWallet_failures (window : Window) (p : EthereumProvider)
    (tr : list ProviderCall) :
  ethereum window = Some p ->
  (request p requestAccounts = Returned (JsArray []) ->
   fst (connectWallet window tr) =
     Threw (ErrorObj
       "Failed to connect wallet: No accounts found. Please connect MetaMask."))
  /\
  (forall message,
     request p requestAccounts = Threw (ErrorObj message) ->
     fst (connectWallet window tr) =
       Threw (ErrorObj ("Failed to connect wallet: " +:+ message)))
  /\
  (forall v,
     request p requestAccounts = Threw (NonError v) ->
     fst (connectWallet window tr) = Threw (NonError v)).
Proof.
  intros Hp. rewrite (connectWallet_with_provider window p tr Hp).
  repeat split; intros; cbn [fst];
    match goal with H : request _ _ = _ |- _ => rewrite H end; reflexivity.
Qed.

Lemma connectWallet_failures_witness :
  fst (connectWallet (window_answering (Returned (JsArray []))) []) =
    Threw (ErrorObj
      "Failed to connect wallet: No accounts found. Please connect MetaMask.")
  /\
  fst (connectWallet
         (window_answering (Threw (ErrorObj "User rejected the request."))) [])
    = Threw (ErrorObj "Failed to connect wallet: User rejected the request.")
  /\
  fst (connectWallet
         (window_answering (Threw (NonError (JsString "locked")))) [])
    = Threw (NonError (JsString "locked")).
Proof.
  split; [|split].
  - apply (proj1 (connectWallet_failures
                    (window_answering (Returned (JsArray [])))
                    (provider_answering (Returned (JsArray []))) []
                    eq_refl)).
    reflexivity.
  - apply (proj1 (proj2 (connectWallet_failures
                    (window_answering
                       (Threw (ErrorObj "User rejected the request.")))
                    (provider_answering
                       (Threw (ErrorObj "User rejected the request."))) []
                    eq_refl))).
    reflexivity.
  - apply (proj2 (proj2 (connectWallet_failures
                    (window_answering (Threw (NonError (JsString "locked"))))
                    (provider_answering (Threw (NonError (JsString "locked"))))
                    [] eq_refl))).
    reflexivity.
Defined.

(** *** getBalance *)

(** C6: when the provider reports a native balance of 10^18 wei,
    [getBalance] returns the string "1.0", after that one query. *)
Theorem getBalance_one_ether (window : Window) (p : EthereumProvider)
    (address : string) (tr : list ProviderCall) :
  ethereum window = Some p ->
  rpc_getBalance p address = Returned 1000000000000000000 ->
  getBalance window address tr
    = (Returned "1.0", tr ++ [CallGetBalance address]).
Proof.
  intros Hp Hbal.
  unfold getBalance, checkMetaMask, try_catch, bind,
    BrowserProvider_getBalance, await_call.
  rewrite Hp. cbn [negb]. rewrite Hbal. reflexivity.
Qed.

Lemma getBalance_one_ether_witness :
  getBalance (window_with_balance 1000000000000000000) "0x1234...5678" []
    = (Returned "1.0", [CallGetBalance "0x1234...5678"]).
Proof.
  apply (getBalance_one_ether
           (window_with_balance 1000000000000000000)
           (provider_with_balance 1000000000000000000)
           "0x1234...5678" []); reflexivity.
Defined.

(** *** getUSDCBalance *)

(** [getUSDCBalance] with a provider present, in terms of the answer to the
    [balanceOf] call. *)
Lemma getUSDCBalance_with_provider (window : Window) (p : EthereumProvider)
    (address : string) (tr : list ProviderCall) :
  ethereum window = Some p ->
  getUSDCBalance window address tr =
    (match rpc_call_balanceOf p USDC_ADDRESS address with
     | Returned balance =>
         Returned (toFixed 2 (Number_div (Number_of_bigint balance)
                                         (Number_of_bigint 1000000)))
     | Threw (ErrorObj message) =>
         Threw (ErrorObj ("Failed to fetch USDC balance: " +:+ message))
     | Threw (NonError v) => Threw (NonError v)
     end,
     tr ++ [CallContract USDC_ADDRESS "balanceOf" address]).
Proof.
  intros Hp.
  unfold getUSDCBalance, checkMetaMask, try_catch, bind, Contract_balanceOf,
    await_call.
  rewrite Hp. cbn [negb].
  destruct (rpc_call_balanceOf p USDC_ADDRESS address) as [b | [message | v]];
    reflexivity.
Qed.

Example getUSDCBalance_1500000 :
  fst (getUSDCBalance (window_with_balance 1500000) "0x1234...5678" [])
    = Returned "1.50".
Proof. vm_compute. reflexivity. Qed.

(** Above 2^53 the conversion to a Number drops low digits: the raw
    balance 10^20 + 10^4, which is 100000000000000.01 tokens, comes out one
    hundredth higher. *)
Example getUSDCBalance_inexact :
  fst (getUSDCBalance (window_with_balance (10 ^ 20 + 10 ^ 4))
         "0x1234...5678" [])
    = Returned "100000000000000.02".
Proof. vm_compute. reflexivity. Qed.

(** From 10^21 tokens on, [toFixed] answers in exponent notation. *)
Example getUSDCBalance_exponent :
  fst (getUSDCBalance (window_with_balance (10 ^ 27)) "0x1234...5678" [])
    = Returned "1e+21".
Proof. vm_compute. reflexivity. Qed.

(** The token balance is not, for every raw [uint256] value, the quotient
    by 10^6 written with two fractional digits. *)
Lemma getUSDCBalance_not_decimal_quotient :
  ~ usdc_balance_is_decimal_quotient.
Proof.
  intros H.
  destruct (H (window_with_balance (10 ^ 20 + 10 ^ 4))
              (provider_with_balance (10 ^ 20 + 10 ^ 4))
              "0x1234...5678" (10 ^ 20 + 10 ^ 4) [] eq_refl eq_refl)
    as (n & Hn & Hres).
  { split; [|reflexivity]. discriminate. }
  assert (n = 10 ^ 16 + 1) as ->.
  { change (10 ^ 4) with 10000 in Hn.
    change (10 ^ 20) with 100000000000000000000 in Hn.
    change (10 ^ 16) with 10000000000000000. lia. }
  vm_compute in Hres. discriminate Hres.
Qed.

(** C4, amended: for a raw balance [b] below 2^53 returned by [balanceOf],
    [getUSDCBalance] returns the two-fractional-digit notation of [n / 100]
    for an integer [n] with [|10^4 * n - b| <= 5000], that is, of a
    hundredth nearest to [b / 10^6]. *)
Theorem getUSDCBalance_nearest_hundredth (window : Window)
    (p : EthereumProvider) (address : string) (b : Z)
    (tr : list ProviderCall) :
  ethereum window = Some p ->
  rpc_call_balanceOf p USDC_ADDRESS address = Returned b ->
  0 <= b < 2 ^ 53 ->
  exists n,
    Z.abs (10 ^ 4 * n - b) <= 5000 /\
    getUSDCBalance window address tr
      = (Returned (hundredths n),
         tr ++ [CallContract USDC_ADDRESS "balanceOf" address]).
Proof.
  intros Hp Hbal Hb.
  destruct (Number_facts.usdc_string_spec b Hb) as (n & Hn & Hstr).
  exists n. split; [exact Hn|].
  rewrite (getUSDCBalance_with_provider window p address tr Hp), Hbal.
  now rewrite Hstr.
Qed.

Lemma getUSDCBalance_nearest_hundredth_witness :
  exists n,
    Z.abs (10 ^ 4 * n - 1500000) <= 5000 /\
    getUSDCBalance (window_with_balance 1500000) "0x1234...5678" []
      = (Returned (hundredths n),
         [CallContract USDC_ADDRESS "balanceOf" "0x1234...5678"]).
Proof.
  apply (getUSDCBalance_nearest_hundredth
           (window_with_balance 1500000) (provider_with_balance 1500000)
           "0x1234...5678" 1500000 []); [reflexivity | reflexivity |].
  split; [discriminate | reflexivity].
Defined.

End Web3_facts.

Module Session_facts.
Import Js Web3 Session.

(** C7: when the store holds an address under "userAddress" at startup, the
    mounted [App] has [isLoggedIn = true] and [userAddress] equal to the
    stored string, and no call to the wallet provider was made. *)
Theorem restore_authenticates (storage : gmap string string)
    (calls : list ProviderCall) (savedAddress : string) :
  storage !! "userAddress" = Some savedAddress ->
  savedAddress <> "" ->
  app (mount storage calls)
    = {| isLoggedIn := true; userAddress := Some savedAddress |}
  /\ providerCalls (mount storage calls) = calls.
Proof.
  intros Hget Hne. unfold mount, restoreSession, getItem. cbn [localStorage].
  rewrite Hget. destruct savedAddress as [|c rest]; [contradiction|].
  split; reflexivity.
Qed.

Lemma restore_authenticates_witness :
  app (mount {["userAddress" := "0x1234...5678"]} [])
    = {| isLoggedIn := true; userAddress := Some "0x1234...5678" |}
  /\ providerCalls (mount {["userAddress" := "0x1234...5678"]} []) = [].
Proof.
  apply (restore_authenticates {["userAddress" := "0x1234...5678"]} []
           "0x1234...5678").
  - apply lookup_singleton_eq.
  - discriminate.
Defined.

(** A stored empty string does not pass [if (savedAddress)]. *)
Lemma restore_empty_string (storage : gmap string string)
    (calls : list ProviderCall) :
  storage !! "userAddress" = Some "" ->
  app (mount storage calls) = initialState.
Proof.
  intros Hget. unfold mount, restoreSession, getItem. cbn [localStorage].
  now rewrite Hget.
Qed.

Lemma restore_nothing_stored (storage : gmap string string)
    (calls : list ProviderCall) :
  storage !! "userAddress" = None ->
  app (mount storage calls) = initialState.
Proof.
  intros Hget. unfold mount, restoreSession, getItem. cbn [localStorage].
  now rewrite Hget.
Qed.

(** C8: [handleLogout] clears both state cells and removes the persisted
    key, and a startup on the store it leaves gives [isLoggedIn = false]
    and [userAddress = null]. *)
Theorem logout_then_startup (pg : Page) (calls : list ProviderCall) :
  app (run handleLogout pg) = {| isLoggedIn := false; userAddress := None |}
  /\ localStorage (run handleLogout pg) !! "userAddress" = None
  /\ app (mount (localStorage (run handleLogout pg)) calls)
     = {| isLoggedIn := false; userAddress := None |}.
Proof.
  assert (Hdel : localStorage (run handleLogout pg) !! "userAddress" = None)
    by (cbn; apply lookup_delete_eq).
  split; [reflexivity|]. split; [exact Hdel|].
  now apply restore_nothing_stored.
Qed.

(** *** The invariant *)

(** At the declared types the invariant is kept between the statements of
    the effect and of the handlers: the address is set before the flag is
    raised, and the flag is lowered before the address is cleared. *)
Lemma invariant_between_statements (pg : Page) (body : list Stmt) (k : nat) :
  session_invariant (app pg) ->
  body = restoreSession pg \/ (exists a, body = handleLoginSuccess a)
    \/ body = handleLogout ->
  session_invariant (app (run (firstn k body) pg)).
Proof.
  intros Hinv [-> | [[a ->] | ->]].
  - unfold restoreSession.
    destruct (getItem pg "userAddress") as [saved|].
    + destruct (String.length saved =? 0)%nat.
      * now rewrite firstn_nil.
      * destruct k as [|[|[|k]]]; cbn; solve [exact Hinv | discriminate].
    + now rewrite firstn_nil.
  - destruct k as [|[|[|[|k]]]]; cbn; solve [exact Hinv | discriminate].
  - destruct k as [|[|[|[|k]]]]; cbn; solve [exact Hinv | discriminate].
Qed.

End Session_facts.

Module Web3_more.
Import Js Web3 Spec Js_facts.

(** *** Without a provider *)

(** X1: without a wallet provider, [getBalance] and [getUSDCBalance] both
    throw [Error("MetaMask is not installed.")], not wrapped by their
    [catch], and make no provider call. *)
Theorem balance_queries_no_provider (window : Window) (address : string)
    (tr : list ProviderCall) :
  checkMetaMask window = false ->
  getBalance window address tr
    = (Threw (ErrorObj "MetaMask is not installed."), tr) /\
  getUSDCBalance window address tr
    = (Threw (ErrorObj "MetaMask is not installed."), tr).
Proof.
  intros H. unfold getBalance, getUSDCBalance. rewrite H. split; reflexivity.
Qed.

Lemma balance_queries_no_provider_witness :
  getBalance {| ethereum := None |} "0x1234...5678" []
    = (Threw (ErrorObj "MetaMask is not installed."), []) /\
  getUSDCBalance {| ethereum := None |} "0x1234...5678" []
    = (Threw (ErrorObj "MetaMask is not installed."), []).
Proof.
  apply (balance_queries_no_provider {| ethereum := None |} "0x1234...5678" []).
  reflexivity.
Defined.

(** *** With a provider *)

Lemma getBalance_with_provider (window : Window) (p : EthereumProvider)
    (address : string) (tr : list ProviderCall) :
  ethereum window = Some p ->
  getBalance window address tr =
    (match rpc_getBalance p address with
     | Returned balance => Returned (formatEther balance)
     | Threw (ErrorObj message) =>
         Threw (ErrorObj ("Failed to fetch balance: " +:+ message))
     | Threw (NonError v) => Threw (NonError v)
     end,
     tr ++ [CallGetBalance address]).
Proof.
  intros Hp.
  unfold getBalance, checkMetaMask, try_catch, bind,
    BrowserProvider_getBalance, await_call.
  rewrite Hp. cbn [negb].
  destruct (rpc_getBalance p address) as [b | [message | v]]; reflexivity.
Qed.

(** X2: a fault raised while the native balance is read comes out of
    [getBalance] as an [Error] whose message is "Failed to fetch balance: "
    followed by the original message when it is an [Error], and unchanged
    when it is any other thrown value. *)
Theorem getBalance_failures (window : Window) (p : EthereumProvider)
    (address : string) (tr : list ProviderCall) :
  ethereum window = Some p ->
  (forall message,
     rpc_getBalance p address = Threw (ErrorObj message) ->
     fst (getBalance window address tr)
       = Threw (ErrorObj ("Failed to fetch balance: " +:+ message))) /\
  (forall v,
     rpc_getBalance p address = Threw (NonError v) ->
     fst (getBalance window address tr) = Threw (NonError v)).
Proof.
  intros Hp. rewrite (getBalance_with_provider window p address tr Hp).
  split; intros ? H; rewrite H; reflexivity.
Qed.

Lemma getBalance_failures_witness :
  fst (getBalance (window_answering (Returned JsNull)) "0x1234...5678" [])
    = Threw (ErrorObj "Failed to fetch balance: unsupported").
Proof.
  apply (proj1 (getBalance_failures
                  (window_answering (Returned JsNull))
                  (provider_answering (Returned JsNull))
                  "0x1234...5678" [] eq_refl)).
  reflexivity.
Defined.

(** X3: the same for the token balance, with the prefix
    "Failed to fetch USDC balance: ". *)
Theorem getUSDCBalance_failures (window : Window) (p : EthereumProvider)
    (address : string) (tr : list ProviderCall) :
  ethereum window = Some p ->
  (forall message,
     rpc_call_balanceOf p USDC_ADDRESS address = Threw (ErrorObj message) ->
     fst (getUSDCBalance window address tr)
       = Threw (ErrorObj ("Failed to fetch USDC balance: " +:+ message))) /\
  (forall v,
     rpc_call_balanceOf p USDC_ADDRESS address = Threw (NonError v) ->
     fst (getUSDCBalance window address tr) = Threw (NonError v)).
Proof.
  intros Hp. rewrite (Web3_facts.getUSDCBalance_with_provider window p address tr Hp).
  split; intros ? H; rewrite H; reflexivity.
Qed.

Lemma getUSDCBalance_failures_witness :
  fst (getUSDCBalance (window_answering (Returned JsNull)) "0x1234...5678" [])
    = Threw (ErrorObj "Failed to fetch USDC balance: unsupported").
Proof.
  apply (proj1 (getUSDCBalance_failures
                  (window_answering (Returned JsNull))
                  (provider_answering (Returned JsNull))
                  "0x1234...5678" [] eq_refl)).
  reflexivity.
Defined.

(** X4: [connectWallet] calls the provider's [request] exactly once, with
    [eth_requestAccounts], when a provider is present, whether it then
    returns or throws, and not at all otherwise; the calls made before are
    kept. *)
Theorem one_provider_call (window : Window) (tr : list ProviderCall) :
  snd (connectWallet window tr)
    = tr ++ (if checkMetaMask window
             then [CallRequest requestAccounts] else []).
Proof.
  destruct (ethereum window) as [p|] eqn:Hp.
  - rewrite (Web3_facts.connectWallet_with_provider window p tr Hp).
    unfold checkMetaMask. now rewrite Hp.
  - assert (Hc : checkMetaMask window = false)
      by (unfold checkMetaMask; now rewrite Hp).
    unfold connectWallet. rewrite Hc. cbn. now rewrite app_nil_r.
Qed.

(** X5: [connectWallet] returns a value only when a provider is present and
    answered [eth_requestAccounts] with a value that is neither falsy nor of
    length zero; the value returned is element 0 of that answer. *)
Theorem connectWallet_returns_only_first (window : Window) (v : JsValue)
    (tr tr' : list ProviderCall) :
  connectWallet window tr = (Returned v, tr') ->
  exists p accounts,
    ethereum window = Some p /\
    request p requestAccounts = Returned accounts /\
    falsy accounts = false /\ length_is_zero accounts = false /\
    v = index0 accounts.
Proof.
  intros H. destruct (ethereum window) as [p|] eqn:Hp.
  - rewrite (Web3_facts.connectWallet_with_provider window p tr Hp) in H.
    destruct (request p requestAccounts) as [accounts | [message | w]] eqn:Hr;
      try discriminate.
    destruct (falsy accounts) eqn:Hf; [discriminate|].
    destruct (length_is_zero accounts) eqn:Hl; [discriminate|].
    cbn [orb] in H. exists p, accounts. repeat split; congruence.
  - unfold connectWallet, checkMetaMask in H. rewrite Hp in H. discriminate.
Qed.

Lemma connectWallet_returns_only_first_witness :
  exists p accounts,
    ethereum (window_answering (Returned (JsArray [JsString "0xABC..."])))
      = Some p /\
    request p requestAccounts = Returned accounts /\
    falsy accounts = false /\ length_is_zero accounts = false /\
    JsString "0xABC..." = index0 accounts.
Proof.
  apply (connectWallet_returns_only_first
           (window_answering (Returned (JsArray [JsString "0xABC..."])))
           (JsString "0xABC...") [] [CallRequest requestAccounts]).
  reflexivity.
Defined.

(** X6: for a raw balance [b] below 2^53 that is not exactly half a
    hundredth ([b mod 10^4 <> 5000]), [getUSDCBalance] returns [b / 10^6]
    rounded to the nearest hundredth; in particular a whole number of
    hundredths is returned exactly. *)
Theorem getUSDCBalance_rounds_to_nearest (window : Window)
    (p : EthereumProvider) (address : string) (b : Z)
    (tr : list ProviderCall) :
  ethereum window = Some p ->
  rpc_call_balanceOf p USDC_ADDRESS address = Returned b ->
  0 <= b < 2 ^ 53 ->
  b mod 10 ^ 4 <> 5000 ->
  fst (getUSDCBalance window address tr)
    = Returned (hundredths ((b + 5000) / 10 ^ 4)).
Proof.
  intros Hp Hbal Hb Htie.
  destruct (Number_facts.usdc_string_spec b Hb) as (n & Hn & Hstr).
  rewrite (Web3_facts.getUSDCBalance_with_provider window p address tr Hp), Hbal.
  cbn [fst]. rewrite Hstr. do 2 f_equal.
  change (10 ^ 4) with 10000 in *.
  pose proof (Z.div_mod b 10000 ltac:(lia)).
  pose proof (Z.mod_pos_bound b 10000 ltac:(lia)).
  pose proof (Z.div_mod (b + 5000) 10000 ltac:(lia)).
  pose proof (Z.mod_pos_bound (b + 5000) 10000 ltac:(lia)).
  lia.
Qed.

Lemma getUSDCBalance_rounds_to_nearest_witness :
  fst (getUSDCBalance (window_with_balance 1006000) "0x1234...5678" [])
    = Returned (hundredths ((1006000 + 5000) / 10 ^ 4)).
Proof.
  apply (getUSDCBalance_rounds_to_nearest
           (window_with_balance 1006000) (provider_with_balance 1006000)
           "0x1234...5678" 1006000 []); try reflexivity.
  - split; [discriminate | reflexivity].
  - discriminate.
Defined.

End Web3_more.

Module Session_more.
Import Js Web3 Session Page_common App.

(** X7: a login survives a reload exactly when the address is not the
    empty string: mounting on the store left by [handleLoginSuccess] gives
    the logged-in state with that address, and the initial state when the
    address is empty. *)
Theorem login_then_reload (pg : Page) (address : string)
    (calls : list ProviderCall) :
  app (mount (localStorage (run (handleLoginSuccess address) pg)) calls)
    = if (String.length address =? 0)%nat then initialState
      else {| isLoggedIn := true; userAddress := Some address |}.
Proof.
  unfold mount, restoreSession, getItem. cbn [localStorage run fold_left
    handleLoginSuccess exec].
  rewrite lookup_insert_eq.
  destruct (String.length address =? 0)%nat; reflexivity.
Qed.

(** The bodies the session shell runs. *)
Lemma handler_cases (pg : Page) (body : list Stmt) :
  body = restoreSession pg \/ (exists a, body = handleLoginSuccess a)
    \/ body = handleLogout ->
  body = [] \/
  (exists a, body = [SetUserAddress (Some a); SetIsLoggedIn true]) \/
  (exists a, body = handleLoginSuccess a) \/ body = handleLogout.
Proof.
  intros [-> | [[a ->] | ->]]; eauto.
  unfold restoreSession. destruct (getItem pg "userAddress") as [saved|]; auto.
  destruct (String.length saved =? 0)%nat; eauto.
Qed.

(** X8: the effect and the two handlers touch no key of the store other
    than "userAddress" and never call the wallet provider. *)
Theorem handlers_frame (pg : Page) (body : list Stmt) :
  body = restoreSession pg \/ (exists a, body = handleLoginSuccess a)
    \/ body = handleLogout ->
  providerCalls (run body pg) = providerCalls pg /\
  forall key, key <> "userAddress" ->
    localStorage (run body pg) !! key = localStorage pg !! key.
Proof.
  intros H.
  destruct (handler_cases pg body H) as [-> | [[a ->] | [[a ->] | ->]]];
    (split; [reflexivity|]); intros key Hkey; cbn.
  - reflexivity.
  - reflexivity.
  - now apply lookup_insert_ne.
  - now apply lookup_delete_ne.
Qed.

Lemma handlers_frame_witness :
  providerCalls (run (handleLoginSuccess "0x1234...5678") (mount ∅ []))
    = providerCalls (mount ∅ []) /\
  forall key, key <> "userAddress" ->
    localStorage (run (handleLoginSuccess "0x1234...5678") (mount ∅ [])) !! key
    = localStorage (mount ∅ []) !! key.
Proof.
  apply (handlers_frame (mount ∅ []) (handleLoginSuccess "0x1234...5678")).
  right; left. exists "0x1234...5678". reflexivity.
Defined.

(** X9: the last handler wins: a login replaces an earlier login, a
    logout undoes a login, and a second logout changes nothing. *)
Theorem handlers_compose (pg : Page) (a b : string) :
  run (handleLoginSuccess b) (run (handleLoginSuccess a) pg)
    = run (handleLoginSuccess b) pg /\
  run handleLogout (run (handleLoginSuccess a) pg) = run handleLogout pg /\
  run handleLogout (run handleLogout pg) = run handleLogout pg.
Proof.
  repeat split; cbn; f_equal.
  - apply insert_insert_eq.
  - apply delete_insert_eq.
  - apply delete_delete_eq.
Qed.

(** X12: right after a startup [App] shows the home page of the stored
    address when one is stored and not empty, and the login page
    otherwise; it never renders nothing. *)
Theorem render_after_startup (storage : gmap string string)
    (calls : list ProviderCall) :
  render (app (mount storage calls)) =
    match storage !! "userAddress" with
    | Some a => if (String.length a =? 0)%nat then ShowLoginPage
                else ShowHomePage a
    | None => ShowLoginPage
    end.
Proof.
  unfold mount, restoreSession, getItem. cbn [localStorage].
  destruct (storage !! "userAddress") as [[|c rest]|]; reflexivity.
Qed.

End Session_more.

Module LoginPage_facts.
Import Js Web3 Spec Page_common LoginPage.

(** What [connectWallet] can throw: its own "not installed" error when no
    provider is present, otherwise an [Error] whose message starts with
    "Failed to connect wallet: ", or a value that is not an [Error]. *)
Lemma connectWallet_thrown (window : Window) (tr : list ProviderCall)
    (err : Thrown) :
  fst (connectWallet window tr) = Threw err ->
  (checkMetaMask window = false /\
   err = ErrorObj "MetaMask is not installed. Please install MetaMask extension.")
  \/ (checkMetaMask window = true /\
      ((exists rest, err = ErrorObj ("Failed to connect wallet: " +:+ rest))
       \/ exists v, err = NonError v)).
Proof.
  destruct (ethereum window) as [p|] eqn:Hp.
  - rewrite (Web3_facts.connectWallet_with_provider window p tr Hp).
    cbn [fst]. intros H. right. split; [unfold checkMetaMask; now rewrite Hp|].
    destruct (request p requestAccounts) as [accounts | [message | v]].
    + destruct (falsy accounts || length_is_zero accounts); [|discriminate].
      injection H as <-. left. eexists. reflexivity.
    + injection H as <-. left. eexists. reflexivity.
    + injection H as <-. right. eexists. reflexivity.
  - assert (Hc : checkMetaMask window = false)
      by (unfold checkMetaMask; now rewrite Hp).
    unfold connectWallet. rewrite Hc. cbn. intros [= <-]. left. now split.
Qed.

(** The handler in terms of the outcome of [connectWallet]. *)
Lemma handleSignIn_with_provider (window : Window) (c : Component)
    (tr : list ProviderCall) :
  checkMetaMask window = true ->
  handleSignInWithMetaMask window c tr =
    (match fst (connectWallet window tr) with
     | Returned address =>
         {| state := {| isConnecting := false; error := None |};
            loginSuccessCalls := loginSuccessCalls c ++ [address] |}
     | Threw err =>
         {| state := {| isConnecting := false;
                        error := Some (message_or "Failed to connect wallet" err) |};
            loginSuccessCalls := loginSuccessCalls c |}
     end,
     snd (connectWallet window tr)).
Proof.
  intros Hc. unfold handleSignInWithMetaMask. rewrite Hc. cbn [negb].
  destruct (connectWallet window tr) as [[address | err] tr']; reflexivity.
Qed.

(** X13: a sign-in attempt ends in exactly one of two ways: the parent's
    [onLoginSuccess] is called once, with what [connectWallet] returned, and
    no error is left in the state; or [onLoginSuccess] is not called and a
    non-empty error message is shown. *)
Theorem sign_in_dichotomy (window : Window) (c : Component)
    (tr : list ProviderCall) :
  let c' := fst (handleSignInWithMetaMask window c tr) in
  (exists address,
     fst (connectWallet window tr) = Returned address /\
     loginSuccessCalls c' = loginSuccessCalls c ++ [address] /\
     error (state c') = None)
  \/
  (loginSuccessCalls c' = loginSuccessCalls c /\
   exists message,
     error (state c') = Some message /\ message <> "" /\
     errorBanner (state c') = Some message).
Proof.
  destruct (checkMetaMask window) eqn:Hc.
  - rewrite (handleSignIn_with_provider window c tr Hc). cbn [fst].
    destruct (fst (connectWallet window tr)) as [address | err] eqn:Hout.
    + left. exists address. repeat split.
    + right. split; [reflexivity|].
      destruct (connectWallet_thrown window tr err Hout)
        as [[Hno _] | [_ [[rest ->] | [v ->]]]]; [congruence| |];
        eexists; repeat split; discriminate.
  - right. unfold handleSignInWithMetaMask. rewrite Hc. cbn.
    split; [reflexivity|]. eexists. repeat split. discriminate.
Qed.

(** X14: when the provider answers with a non-empty list of accounts the
    parent receives the first one; an error left by an earlier attempt is
    cleared, the button is enabled again, and one provider call was made. *)
Theorem sign_in_success (window : Window) (p : EthereumProvider)
    (first : string) (others : list string) (c : Component)
    (tr : list ProviderCall) :
  ethereum window = Some p ->
  request p requestAccounts
    = Returned (JsArray (map JsString (first :: others))) ->
  handleSignInWithMetaMask window c tr =
    ({| state := {| isConnecting := false; error := None |};
        loginSuccessCalls := loginSuccessCalls c ++ [JsString first] |},
     tr ++ [CallRequest requestAccounts]).
Proof.
  intros Hp Hreq.
  rewrite handleSignIn_with_provider
    by (unfold checkMetaMask; now rewrite Hp).
  rewrite (Web3_facts.connectWallet_with_provider window p tr Hp), Hreq.
  reflexivity.
Qed.

Lemma sign_in_success_witness :
  handleSignInWithMetaMask
    (window_answering (Returned (JsArray [JsString "0xABC..."; JsString "0xDEF..."])))
    {| state := {| isConnecting := false; error := Some "earlier failure" |};
       loginSuccessCalls := [] |}
    []
  = ({| state := {| isConnecting := false; error := None |};
        loginSuccessCalls := [] ++ [JsString "0xABC..."] |},
     [] ++ [CallRequest requestAccounts]).
Proof.
  apply (sign_in_success
           (window_answering
              (Returned (JsArray [JsString "0xABC..."; JsString "0xDEF..."])))
           (provider_answering
              (Returned (JsArray [JsString "0xABC..."; JsString "0xDEF..."])))
           "0xABC..." ["0xDEF..."]); reflexivity.
Defined.

(** X15: the message a failed attempt shows.  Without a provider: the
    page's own "MetaMask is not installed. Please install the MetaMask
    extension to continue.", with no provider call and [isConnecting] left
    as it was.  With a provider: "Failed to connect wallet: " followed by
    the provider's message for an [Error], "Failed to connect wallet: No
    accounts found. Please connect MetaMask." for an empty list, and
    "Failed to connect wallet" for a thrown value that is not an [Error]. *)
Theorem sign_in_failure_messages (window : Window) (c : Component)
    (tr : list ProviderCall) :
  (checkMetaMask window = false ->
   handleSignInWithMetaMask window c tr =
     ({| state :=
           {| isConnecting := isConnecting (state c);
              error := Some "MetaMask is not installed. Please install the MetaMask extension to continue." |};
         loginSuccessCalls := loginSuccessCalls c |},
      tr)) /\
  (forall p,
     ethereum window = Some p ->
     let shown := error (state (fst (handleSignInWithMetaMask window c tr))) in
     (forall message,
        request p requestAccounts = Threw (ErrorObj message) ->
        shown = Some ("Failed to connect wallet: " +:+ message)) /\
     (request p requestAccounts = Returned (JsArray []) ->
      shown = Some "Failed to connect wallet: No accounts found. Please connect MetaMask.") /\
     (forall v,
        request p requestAccounts = Threw (NonError v) ->
        shown = Some "Failed to connect wallet")).
Proof.
  split.
  - intros Hc. unfold handleSignInWithMetaMask. rewrite Hc. reflexivity.
  - intros p Hp.
    rewrite handleSignIn_with_provider
      by (unfold checkMetaMask; now rewrite Hp).
    rewrite (Web3_facts.connectWallet_with_provider window p tr Hp).
    cbn [fst]. repeat split; intros; 
      match goal with H : request _ _ = _ |- _ => rewrite H end; reflexivity.
Qed.

Lemma sign_in_failure_messages_witness :
  handleSignInWithMetaMask {| ethereum := None |}
    {| state := initialState; loginSuccessCalls := [] |} []
  = ({| state :=
          {| isConnecting := false;
             error := Some "MetaMask is not installed. Please install the MetaMask extension to continue." |};
        loginSuccessCalls := [] |},
     []) /\
  error (state (fst (handleSignInWithMetaMask
                       (window_answering
                          (Threw (ErrorObj "User rejected the request.")))
                       {| state := initialState; loginSuccessCalls := [] |} [])))
  = Some "Failed to connect wallet: User rejected the request.".
Proof.
  split.
  - apply (proj1 (sign_in_failure_messages {| ethereum := None |}
                    {| state := initialState; loginSuccessCalls := [] |} [])).
    reflexivity.
  - apply (proj1 (proj2 (sign_in_failure_messages
                    (window_answering
                       (Threw (ErrorObj "User rejected the request.")))
                    {| state := initialState; loginSuccessCalls := [] |} [])
                  (provider_answering
                     (Threw (ErrorObj "User rejected the request.")))
                  eq_refl)).
    reflexivity.
Defined.

(** X16: an attempt started with the button enabled leaves it enabled,
    whatever happens in between. *)
Theorem sign_in_reenables_button (window : Window) (c : Component)
    (tr : list ProviderCall) :
  isConnecting (state c) = false ->
  isConnecting (state (fst (handleSignInWithMetaMask window c tr))) = false.
Proof.
  intros H. destruct (checkMetaMask window) eqn:Hc.
  - rewrite (handleSignIn_with_provider window c tr Hc). cbn [fst].
    now destruct (fst (connectWallet window tr)).
  - unfold handleSignInWithMetaMask. rewrite Hc. exact H.
Qed.

Lemma sign_in_reenables_button_witness :
  isConnecting
    (state (fst (handleSignInWithMetaMask
                   (window_answering (Threw (NonError JsNull)))
                   {| state := initialState; loginSuccessCalls := [] |} [])))
  = false.
Proof.
  apply (sign_in_reenables_button
           (window_answering (Threw (NonError JsNull)))
           {| state := initialState; loginSuccessCalls := [] |} []).
  reflexivity.
Defined.

End LoginPage_facts.

Module HomePage_facts.
Import Js Web3 Spec Page_common HomePage.

(** The outcome of a wallet function does not depend on the calls made
    before it. *)
Lemma balance_outcomes_ignore_trace (window : Window) (address : string)
    (tr1 tr2 : list ProviderCall) :
  fst (getBalance window address tr1) = fst (getBalance window address tr2) /\
  fst (getUSDCBalance window address tr1)
    = fst (getUSDCBalance window address tr2).
Proof.
  unfold getBalance, getUSDCBalance, try_catch, bind,
    BrowserProvider_getBalance, Contract_balanceOf, await_call, checkMetaMask.
  destruct (ethereum window) as [p|]; cbn [negb]; [|split; reflexivity].
  split.
  - destruct (rpc_getBalance p address) as [b | [m | v]]; reflexivity.
  - destruct (rpc_call_balanceOf p USDC_ADDRESS address) as [b | [m | v]];
      reflexivity.
Qed.

(** Neither balance function throws an [Error] with an empty message. *)
Lemma balance_errors_not_empty (window : Window) (address : string)
    (tr : list ProviderCall) :
  fst (getBalance window address tr) <> Threw (ErrorObj "") /\
  fst (getUSDCBalance window address tr) <> Threw (ErrorObj "").
Proof.
  unfold getBalance, getUSDCBalance, try_catch, bind,
    BrowserProvider_getBalance, Contract_balanceOf, await_call, checkMetaMask.
  destruct (ethereum window) as [p|]; cbn [negb]; [|split; discriminate].
  split.
  - destruct (rpc_getBalance p address) as [b | [m | v]]; discriminate.
  - destruct (rpc_call_balanceOf p USDC_ADDRESS address) as [b | [m | v]];
      discriminate.
Qed.

(** The state after [fetchBalance], cell by cell. *)
Lemma fetchBalance_state (window : Window) (address : string)
    (st : HomeState) (tr : list ProviderCall) :
  fst (fetchBalance window address st tr) =
    {| balance :=
         match fst (getBalance window address tr) with
         | Returned v => Some v
         | Threw _ => balance st
         end;
       usdcBalance := usdcBalance st;
       isLoadingBalance := false;
       isLoadingUsdc := isLoadingUsdc st;
       error :=
         match fst (getBalance window address tr) with
         | Returned _ => None
         | Threw err => Some (message_or "Failed to fetch balance" err)
         end;
       usdcError := usdcError st |}.
Proof.
  unfold fetchBalance.
  destruct (getBalance window address tr) as [[v | err] tr']; reflexivity.
Qed.

Lemma fetchUSDCBalance_state (window : Window) (address : string)
    (st : HomeState) (tr : list ProviderCall) :
  fst (fetchUSDCBalance window address st tr) =
    {| balance := balance st;
       usdcBalance :=
         match fst (getUSDCBalance window address tr) with
         | Returned v => Some v
         | Threw _ => usdcBalance st
         end;
       isLoadingBalance := isLoadingBalance st;
       isLoadingUsdc := false;
       error := error st;
       usdcError :=
         match fst (getUSDCBalance window address tr) with
         | Returned _ => None
         | Threw err => Some (message_or "Failed to fetch USDC balance" err)
         end |}.
Proof.
  unfold fetchUSDCBalance.
  destruct (getUSDCBalance window address tr) as [[v | err] tr']; reflexivity.
Qed.

(** X17: the two fetches do not interfere: each leaves the three cells of
    the other card untouched, and running them in either order gives the
    same state. *)
Theorem fetches_independent (window : Window) (address : string)
    (st : HomeState) (tr : list ProviderCall) :
  let after_eth := fetchBalance window address st tr in
  let after_usdc := fetchUSDCBalance window address st tr in
  usdcCard (fst after_eth) = usdcCard st /\
  ethCard (fst after_usdc) = ethCard st /\
  fst (fetchUSDCBalance window address (fst after_eth) (snd after_eth))
    = fst (fetchBalance window address (fst after_usdc) (snd after_usdc)).
Proof.
  cbn zeta. rewrite !fetchBalance_state, !fetchUSDCBalance_state.
  cbn [balance usdcBalance isLoadingBalance isLoadingUsdc error usdcError].
  destruct (balance_outcomes_ignore_trace window address tr
              (snd (fetchUSDCBalance window address st tr))) as [-> _].
  destruct (balance_outcomes_ignore_trace window address tr
              (snd (fetchBalance window address st tr))) as [_ <-].
  repeat split.
Qed.

(** X18: once a fetch has completed, its card shows the amount when the
    wallet function returned and the error message when it threw, whatever
    the card showed before: never the loading skeleton, never nothing, and
    never a value left by an earlier fetch. *)
Theorem card_after_fetch (window : Window) (address : string)
    (st : HomeState) (tr : list ProviderCall) :
  ethCard (fst (fetchBalance window address st tr)) =
    match fst (getBalance window address tr) with
    | Returned amount => CardAmount amount "ETH"
    | Threw err => CardError (message_or "Failed to fetch balance" err)
    end /\
  usdcCard (fst (fetchUSDCBalance window address st tr)) =
    match fst (getUSDCBalance window address tr) with
    | Returned amount => CardAmount amount "USDC"
    | Threw err => CardError (message_or "Failed to fetch USDC balance" err)
    end.
Proof.
  rewrite fetchBalance_state, fetchUSDCBalance_state.
  destruct (balance_errors_not_empty window address tr) as [He Hu].
  unfold ethCard, usdcCard, card.
  cbn [balance usdcBalance isLoadingBalance isLoadingUsdc error usdcError].
  split.
  - destruct (fst (getBalance window address tr)) as [v | [m | v]];
      try reflexivity.
    destruct m; [congruence | reflexivity].
  - destruct (fst (getUSDCBalance window address tr)) as [v | [m | v]];
      try reflexivity.
    destruct m; [congruence | reflexivity].
Qed.

End HomePage_facts.

Module Runtime_facts.
Import Js Web3 Spec Runtime.

(** On string addresses [Runtime] is [Session]. *)
Lemma lift_agrees (pg : Session.Page) (a : string)
    (storage : gmap string string) (calls : list ProviderCall) :
  lift (Session.mount storage calls) = mount storage calls /\
  lift (Session.run (Session.handleLoginSuccess a) pg)
    = run (handleLoginSuccess (JsString a)) (lift pg) /\
  lift (Session.run Session.handleLogout pg) = run handleLogout (lift pg).
Proof.
  repeat split.
  unfold Session.mount, mount, Session.restoreSession, restoreSession,
    Session.getItem.
  cbn [Session.localStorage localStorage].
  destruct (storage !! "userAddress") as [saved|]; [|reflexivity].
  destruct (String.length saved =? 0)%nat; reflexivity.
Qed.

(** Whatever the wallet puts first in its answer is what [connectWallet]
    returns, and what [LoginPage] hands to [onLoginSuccess]. *)
Lemma sign_in_delivers_any_value (v : JsValue) (others : list JsValue)
    (c : LoginPage.Component) (tr : list ProviderCall) :
  fst (connectWallet (window_answering (Returned (JsArray (v :: others)))) tr)
    = Returned v /\
  LoginPage.loginSuccessCalls
    (fst (LoginPage.handleSignInWithMetaMask
            (window_answering (Returned (JsArray (v :: others)))) c tr))
    = LoginPage.loginSuccessCalls c ++ [v].
Proof. split; reflexivity. Qed.

(** On the answer [[null, "0xDEF..."]] the sign-in hands [null] to
    [onLoginSuccess], and that login leaves [isLoggedIn = true] with
    [userAddress = null], the string "null" in the store, and nothing
    rendered. *)
Example login_with_null :
  LoginPage.loginSuccessCalls
    (fst (LoginPage.handleSignInWithMetaMask
            (window_answering (Returned (JsArray [JsNull; JsString "0xDEF..."])))
            {| LoginPage.state := LoginPage.initialState;
               LoginPage.loginSuccessCalls := [] |} []))
    = [JsNull] /\
  app (run (handleLoginSuccess JsNull) (mount ∅ []))
    = {| isLoggedIn := true; userAddress := JsNull |} /\
  localStorage (run (handleLoginSuccess JsNull) (mount ∅ [])) !! "userAddress"
    = Some "null" /\
  render (app (run (handleLoginSuccess JsNull) (mount ∅ []))) = ShowNothing.
Proof.
  repeat split.
Qed.










End Runtime_facts.
